(** * Profile and configuration resolution of the CodeMie CLI

    The repository ships the integration tests and fixtures of the profile
    subsystem (MultiProviderConfig documents with [version], [activeProfile]
    and a [profiles] map of CodeMieConfigOptions), but not the modules that
    implement ConfigStore, ProfileRegistry, CredentialValidator,
    ConfigResolver and AwsProfileLookup.  Those components are modelled here
    from the specification of the subsystem; every such definition says so in
    its doc comment.  The data shapes follow the fixtures of
    tests/integration/cli-commands/profile.test.ts. *)

From Stdlib Require Import String Ascii List ZArith Bool Lia.
Import ListNotations.
Open Scope string_scope.
Open Scope list_scope.
Set Warnings "-register-all".

(** ** JSON values

    The persisted document is a JSON value; objects are kept as association
    lists in their written order, as [JSON.parse] produces them. *)

Inductive json : Type :=
| JNull
| JBool (b : bool)
| JNum (n : Z)
| JStr (s : string)
| JArr (xs : list json)
| JObj (kvs : list (string * json)).

(** First binding of a key in an association list. *)
Fixpoint assoc {A : Type} (k : string) (l : list (string * A)) : option A :=
  match l with
  | [] => None
  | (k', v) :: l' => if String.eqb k k' then Some v else assoc k l'
  end.

(** ** Data model: CodeMieConfigOptions and MultiProviderConfig *)

Inductive Provider : Type := litellm | bedrock.

(** A stored profile.  Every field of the TypeScript object is optional
    ([baseUrl: liteLLMBaseUrl] may be [undefined] in the fixtures); [timeout]
    keeps the raw JSON value, since a non-numeric timeout is a validation
    failure and not a load failure. *)
Record CodeMieConfigOptions : Type := mkOptions {
  provider : Provider;
  baseUrl : option string;
  apiKey : option string;
  awsSecretAccessKey : option string;
  awsRegion : option string;
  awsProfile : option string;
  model : option string;
  timeout : option json;
  debug : option bool;
  name : option string
}.

Record MultiProviderConfig : Type := mkConfig {
  version : Z;
  activeProfile : option string;
  profiles : list (string * CodeMieConfigOptions)
}.

(** The schema tag written by the current release. *)
Definition CURRENT_VERSION : Z := 2.

(** A field is present in the sense of the validator when it is set to a
    non-empty string. *)
Definition nonEmpty (o : option string) : bool :=
  match o with
  | Some s => negb (String.eqb s EmptyString)
  | None => false
  end.

(** ** CredentialValidator *)

Inductive MissingField : Type :=
| MF_baseUrl
| MF_apiKey
| MF_awsRegion
| MF_timeout
(** the named-AWS-profile combination: [awsProfile] *)
| MF_authAwsProfile
(** the static-keys combination: [apiKey] and [awsSecretAccessKey] *)
| MF_authStaticKeys.

Inductive ValidationResult : Type :=
| Valid
| Invalid (missing : list MissingField).

Definition require (o : option string) (f : MissingField) : list MissingField :=
  if nonEmpty o then [] else [f].

(** [timeout], if present, must be a positive integer. *)
Definition timeoutOk (t : option json) : bool :=
  match t with
  | None => true
  | Some (JNum n) => Z.ltb 0 n
  | Some _ => false
  end.

(** One of the two Bedrock authentication modes is satisfiable. *)
Definition bedrockAuthOk (p : CodeMieConfigOptions) : bool :=
  nonEmpty (awsProfile p)
  || (nonEmpty (apiKey p) && nonEmpty (awsSecretAccessKey p)).

(** Modelled from the spec: CredentialValidator.validate (section 4.3),
    an exhaustive match over the provider kind collecting every missing
    field. *)
Definition validate (p : CodeMieConfigOptions) : ValidationResult :=
  let byProvider :=
    match provider p with
    | litellm => require (baseUrl p) MF_baseUrl ++ require (apiKey p) MF_apiKey
    | bedrock =>
        require (baseUrl p) MF_baseUrl
        ++ require (awsRegion p) MF_awsRegion
        ++ (if bedrockAuthOk p then [] else [MF_authAwsProfile; MF_authStaticKeys])
    end in
  let missing := byProvider ++ (if timeoutOk (timeout p) then [] else [MF_timeout]) in
  match missing with
  | [] => Valid
  | _ => Invalid missing
  end.

(** ** Serialisation of the document

    [JSON.stringify] drops [undefined] members, so an absent optional field
    is an absent key.  [version], [activeProfile] and [profiles] are always
    written; an absent [activeProfile] is written as [null]. *)

Notation "'let*' x := a 'in' b" :=
  (match a with Some x => b | None => None end)
  (at level 200, x name, a at level 100, b at level 200).

Definition providerToString (p : Provider) : string :=
  match p with
  | litellm => "litellm"
  | bedrock => "bedrock"
  end.

Definition providerOfString (s : string) : option Provider :=
  if String.eqb s "litellm" then Some litellm
  else if String.eqb s "bedrock" then Some bedrock
  else None.

Definition member {A : Type} (k : string) (o : option A) (f : A -> json)
  : list (string * json) :=
  match o with
  | Some v => [(k, f v)]
  | None => []
  end.

Definition encodeOptions (p : CodeMieConfigOptions) : json :=
  JObj ([("provider", JStr (providerToString (provider p)))]
        ++ member "baseUrl" (baseUrl p) JStr
        ++ member "apiKey" (apiKey p) JStr
        ++ member "awsSecretAccessKey" (awsSecretAccessKey p) JStr
        ++ member "awsRegion" (awsRegion p) JStr
        ++ member "awsProfile" (awsProfile p) JStr
        ++ member "model" (model p) JStr
        ++ member "timeout" (timeout p) (fun j => j)
        ++ member "debug" (debug p) JBool
        ++ member "name" (name p) JStr).

Definition encodeConfig (d : MultiProviderConfig) : json :=
  JObj [("version", JNum (version d));
        ("activeProfile",
          match activeProfile d with Some a => JStr a | None => JNull end);
        ("profiles",
          JObj (map (fun kv => (fst kv, encodeOptions (snd kv))) (profiles d)))].

(** An optional string member: absent is [None], a string is [Some], any
    other JSON value makes the document unreadable. *)
Definition optString (kvs : list (string * json)) (k : string)
  : option (option string) :=
  match assoc k kvs with
  | None => Some None
  | Some (JStr s) => Some (Some s)
  | Some _ => None
  end.

Definition optBool (kvs : list (string * json)) (k : string)
  : option (option bool) :=
  match assoc k kvs with
  | None => Some None
  | Some (JBool b) => Some (Some b)
  | Some _ => None
  end.

Definition decodeOptions (j : json) : option CodeMieConfigOptions :=
  match j with
  | JObj kvs =>
      let* prov := match assoc "provider" kvs with
                   | Some (JStr s) => providerOfString s
                   | _ => None
                   end in
      let* bu := optString kvs "baseUrl" in
      let* ak := optString kvs "apiKey" in
      let* sk := optString kvs "awsSecretAccessKey" in
      let* rg := optString kvs "awsRegion" in
      let* ap := optString kvs "awsProfile" in
      let* md := optString kvs "model" in
      let* db := optBool kvs "debug" in
      let* nm := optString kvs "name" in
      Some (mkOptions prov bu ak sk rg ap md (assoc "timeout" kvs) db nm)
  | _ => None
  end.

Fixpoint decodeProfiles (kvs : list (string * json))
  : option (list (string * CodeMieConfigOptions)) :=
  match kvs with
  | [] => Some []
  | (k, v) :: rest =>
      let* p := decodeOptions v in
      let* ps := decodeProfiles rest in
      Some ((k, p) :: ps)
  end.

Definition decodeActive (kvs : list (string * json)) : option (option string) :=
  match assoc "activeProfile" kvs with
  | None | Some JNull => Some None
  | Some (JStr a) => Some (Some a)
  | Some _ => None
  end.

(** The error kinds of ConfigStore (section 7). *)
Inductive ConfigError : Type :=
| NotFound
| ConfigCorrupt
| VersionUnsupported.

Inductive LoadResult : Type :=
| Loaded (d : MultiProviderConfig)
| LoadFailed (e : ConfigError).

(** Modelled from the spec: the document check of ConfigStore.load
    (section 4.1).  The version is checked first: a missing, non-numeric or
    unrecognised [version] is [VersionUnsupported]; a top-level value that is
    not an object, or members of the wrong shape, are [ConfigCorrupt]. *)
Definition decodeConfig (j : json) : LoadResult :=
  match j with
  | JObj kvs =>
      match assoc "version" kvs with
      | Some (JNum v) =>
          if Z.eqb v CURRENT_VERSION then
            match decodeActive kvs,
                  match assoc "profiles" kvs with
                  | Some (JObj ps) => decodeProfiles ps
                  | _ => None
                  end with
            | Some a, Some ps => Loaded (mkConfig v a ps)
            | _, _ => LoadFailed ConfigCorrupt
            end
          else LoadFailed VersionUnsupported
      | _ => LoadFailed VersionUnsupported
      end
  | _ => LoadFailed ConfigCorrupt
  end.

(** ** ConfigResolver *)

(** Process environment; a variable set to the empty string counts as
    unset, as in the [process.env.X || ...] reads of the test suite. *)
Definition Env := list (string * string).

Definition envGet (env : Env) (k : string) : option string :=
  match assoc k env with
  | Some v => if String.eqb v EmptyString then None else Some v
  | None => None
  end.

Definition anySet (vs : list (option string)) : bool :=
  existsb (fun o => match o with Some _ => true | None => false end) vs.

(** Modelled from the spec: the environment fallback of ConfigResolver
    (sections 4.4 and 6).  LiteLLM-scoped variables are consulted first,
    then the Bedrock-scoped ones; the variable names are the ones the
    integration tests read. *)
Definition envProfile (env : Env) : option CodeMieConfigOptions :=
  let lbu := envGet env "LITELLM_BASE_URL" in
  let lak := envGet env "LITELLM_API_KEY" in
  let lmd := envGet env "LITELLM_MODEL" in
  let bbu := envGet env "BEDROCK_BASE_URL" in
  let bak := envGet env "BEDROCK_API_KEY" in
  let bsk := envGet env "BEDROCK_SECRET_KEY" in
  let brg := envGet env "BEDROCK_REGION" in
  let bap := envGet env "AWS_PROFILE" in
  let bmd := envGet env "BEDROCK_MODEL" in
  if anySet [lbu; lak; lmd] then
    Some (mkOptions litellm lbu lak None None None lmd None None None)
  else if anySet [bbu; bak; bsk; brg; bap; bmd] then
    Some (mkOptions bedrock bbu bak bsk brg bap bmd None None None)
  else None.

(** Command-line flags of one invocation. *)
Record Flags : Type := mkFlags {
  flagProfile : option string;
  flagModel : option string;
  flagBaseUrl : option string
}.

Definition noFlags : Flags := mkFlags None None None.

(** Modelled from the spec: the choice of the base profile by ConfigResolver
    (section 4.4).  [doc] is [None] when ConfigStore.load reported
    [NotFound].  A [--profile] flag selects a stored profile; without it the
    document's [activeProfile] does; the environment is read only when there
    is neither a flag nor a stored active profile.  The name of the base
    profile is returned with it ([None] for the environment). *)
Definition baseProfile (flags : Flags) (doc : option MultiProviderConfig) (env : Env)
  : option (option string * CodeMieConfigOptions) :=
  let stored n :=
    match doc with
    | Some d => match assoc n (profiles d) with
                | Some p => Some (Some n, p)
                | None => None
                end
    | None => None
    end in
  match flagProfile flags with
  | Some n => stored n
  | None =>
      match doc with
      | Some d =>
          match activeProfile d with
          | Some a => stored a
          | None => match envProfile env with
                    | Some p => Some (None, p)
                    | None => None
                    end
          end
      | None => match envProfile env with
                | Some p => Some (None, p)
                | None => None
                end
      end
  end.

Definition orElse {A : Type} (o d : option A) : option A :=
  match o with Some _ => o | None => d end.

(** Field-level flag overrides, applied on top of the base profile. *)
Definition applyOverrides (flags : Flags) (p : CodeMieConfigOptions)
  : CodeMieConfigOptions :=
  mkOptions (provider p) (orElse (flagBaseUrl flags) (baseUrl p)) (apiKey p)
    (awsSecretAccessKey p) (awsRegion p) (awsProfile p)
    (orElse (flagModel flags) (model p)) (timeout p) (debug p) (name p).

(** Modelled from the spec: the status marker (section 4.4), a comparison of
    the resolved profile's name with the persisted [activeProfile]. *)
Definition isActiveMarker (doc : option MultiProviderConfig) (nm : option string)
  : bool :=
  match doc, nm with
  | Some d, Some n =>
      match activeProfile d with
      | Some a => String.eqb n a
      | None => false
      end
  | _, _ => false
  end.

Record EffectiveProfile : Type := mkEffective {
  effName : option string;
  effOptions : CodeMieConfigOptions;
  isActive : bool
}.

Inductive ResolutionResult : Type :=
| Resolved (e : EffectiveProfile)
| NoActiveProfile
| IncompleteProfile (missing : list MissingField).

(** Modelled from the spec: ConfigResolver.resolve (section 4.4). *)
Definition resolve (flags : Flags) (doc : option MultiProviderConfig) (env : Env)
  : ResolutionResult :=
  match baseProfile flags doc env with
  | None => NoActiveProfile
  | Some (nm, p) =>
      let p' := applyOverrides flags p in
      match validate p' with
      | Valid => Resolved (mkEffective nm p' (isActiveMarker doc nm))
      | Invalid fs => IncompleteProfile fs
      end
  end.

(** ** ConfigStore and ProfileRegistry

    The configuration file is [option text]: [None] when it does not exist.
    The text format is abstracted by the JSON parser and printer of the
    runtime. *)

Inductive RegistryError : Type :=
| RegConfig (e : ConfigError)
| ProfileNotFound
| DuplicateProfile.

Inductive Outcome : Type :=
| Done
| Failed (e : RegistryError).

(** Every binding of [k] removed. *)
Definition removeKey {A : Type} (k : string) (l : list (string * A))
  : list (string * A) :=
  filter (fun kv => negb (String.eqb k (fst kv))) l.

Definition setActive (d : MultiProviderConfig) (a : option string)
  : MultiProviderConfig :=
  mkConfig (version d) a (profiles d).

Section ConfigStore.

Context {text : Type}.
Variable parseJson : text -> option json.
Variable stringifyJson : json -> text.

(** Modelled from the spec: ConfigStore.load (section 4.1). *)
Definition load (file : option text) : LoadResult :=
  match file with
  | None => LoadFailed NotFound
  | Some t =>
      match parseJson t with
      | None => LoadFailed ConfigCorrupt
      | Some j => decodeConfig j
      end
  end.

(** Modelled from the spec: ConfigStore.save (section 4.1), the whole
    document replacing the file; the write protocol that makes the
    replacement atomic is modelled in [AtomicSave] below. *)
Definition save (d : MultiProviderConfig) (file : option text) : option text :=
  Some (stringifyJson (encodeConfig d)).

(** Modelled from the spec: ProfileRegistry.add (section 4.2); the first
    profile creates the document. *)
Definition add (n : string) (p : CodeMieConfigOptions) (file : option text)
  : Outcome * option text :=
  match load file with
  | LoadFailed NotFound =>
      (Done, save (mkConfig CURRENT_VERSION None [(n, p)]) file)
  | LoadFailed e => (Failed (RegConfig e), file)
  | Loaded d =>
      match assoc n (profiles d) with
      | Some _ => (Failed DuplicateProfile, file)
      | None =>
          (Done, save (mkConfig (version d) (activeProfile d)
                                (profiles d ++ [(n, p)])) file)
      end
  end.

(** Modelled from the spec: ProfileRegistry.switchActive (section 4.2). *)
Definition switchActive (n : string) (file : option text) : Outcome * option text :=
  match load file with
  | LoadFailed e => (Failed (RegConfig e), file)
  | Loaded d =>
      match assoc n (profiles d) with
      | None => (Failed ProfileNotFound, file)
      | Some _ => (Done, save (setActive d (Some n)) file)
      end
  end.

(** Modelled from the spec: ProfileRegistry.delete (section 4.2); deleting
    the active profile clears [activeProfile]. *)
Definition delete (n : string) (file : option text) : Outcome * option text :=
  match load file with
  | LoadFailed e => (Failed (RegConfig e), file)
  | Loaded d =>
      match assoc n (profiles d) with
      | None => (Failed ProfileNotFound, file)
      | Some _ =>
          let a := match activeProfile d with
                   | Some a => if String.eqb a n then None else Some a
                   | None => None
                   end in
          (Done, save (mkConfig (version d) a (removeKey n (profiles d))) file)
      end
  end.

Inductive Invocation : Type :=
| InvConfigError (e : ConfigError)
| InvResolved (r : ResolutionResult).

(** One CLI invocation: load the document ([NotFound] is the "never
    configured" case) and resolve against it.  The file is only read. *)
Definition invoke (flags : Flags) (env : Env) (file : option text)
  : Invocation * option text :=
  match load file with
  | Loaded d => (InvResolved (resolve flags (Some d) env), file)
  | LoadFailed NotFound => (InvResolved (resolve flags None env), file)
  | LoadFailed e => (InvConfigError e, file)
  end.

End ConfigStore.

(** ** AwsProfileLookup *)

Definition isBlank (c : ascii) : bool :=
  Ascii.eqb c " "%char || Ascii.eqb c (ascii_of_nat 9)
  || Ascii.eqb c (ascii_of_nat 13).

Fixpoint dropBlanks (l : list ascii) : list ascii :=
  match l with
  | c :: r => if isBlank c then dropBlanks r else l
  | [] => []
  end.

Definition trim (s : string) : string :=
  string_of_list_ascii
    (rev (dropBlanks (rev (dropBlanks (list_ascii_of_string s))))).

Definition lowerAscii (c : ascii) : ascii :=
  let n := nat_of_ascii c in
  if Nat.leb 65 n && Nat.leb n 90 then ascii_of_nat (n + 32)%nat else c.

Fixpoint lowerString (s : string) : string :=
  match s with
  | EmptyString => EmptyString
  | String c r => String (lowerAscii c) (lowerString r)
  end.

(** The file split at line feeds. *)
Fixpoint lines (s : string) : list string :=
  match s with
  | EmptyString => [EmptyString]
  | String c r =>
      if Ascii.eqb c (ascii_of_nat 10) then EmptyString :: lines r
      else match lines r with
           | [] => [String c EmptyString]
           | l :: ls => String c l :: ls
           end
  end.

Inductive IniLine : Type :=
| Header (section : string)
| KeyVal (key value : string)
| OtherLine.

(** Split at the first [=]. *)
Fixpoint splitEq (l : list ascii) : option (list ascii * list ascii) :=
  match l with
  | [] => None
  | c :: r =>
      if Ascii.eqb c "="%char then Some ([], r)
      else match splitEq r with
           | Some (k, v) => Some (c :: k, v)
           | None => None
           end
  end.

(** Modelled from the spec: the INI-like line syntax of the AWS credentials
    file (section 6): [[name]] headers and [key = value] entries. *)
Definition parseLine (line : string) : IniLine :=
  match list_ascii_of_string (trim line) with
  | "["%char :: rest =>
      match rev rest with
      | "]"%char :: inner => Header (trim (string_of_list_ascii (rev inner)))
      | _ => OtherLine
      end
  | l =>
      match splitEq l with
      | Some (k, v) => KeyVal (trim (string_of_list_ascii k))
                              (trim (string_of_list_ascii v))
      | None => OtherLine
      end
  end.

Definition sameSection (h n : string) : bool :=
  String.eqb (lowerString h) (lowerString n).

(** The lines of a section: up to the next header. *)
Fixpoint sectionBody (ls : list IniLine) : list IniLine :=
  match ls with
  | Header _ :: _ => []
  | l :: r => l :: sectionBody r
  | [] => []
  end.

Fixpoint findSection (n : string) (ls : list IniLine) : option (list IniLine) :=
  match ls with
  | [] => None
  | Header h :: r => if sameSection h n then Some (sectionBody r) else findSection n r
  | _ :: r => findSection n r
  end.

Fixpoint keyIn (k : string) (body : list IniLine) : option string :=
  match body with
  | [] => None
  | KeyVal k' v :: r => if String.eqb k k' then Some v else keyIn k r
  | _ :: r => keyIn k r
  end.

Inductive CredentialsResult : Type :=
| StaticCredentials (accessKeyId secretAccessKey : string)
| ProfileNotFoundInCredentialsFile.

Definition credentialsInLines (profileName : string) (ls : list string)
  : CredentialsResult :=
  match findSection profileName (map parseLine ls) with
  | None => ProfileNotFoundInCredentialsFile
  | Some body =>
      match keyIn "aws_access_key_id" body, keyIn "aws_secret_access_key" body with
      | Some a, Some s => StaticCredentials a s
      | _, _ => ProfileNotFoundInCredentialsFile
      end
  end.

(** Modelled from the spec: AwsProfileLookup.resolveStaticCredentials
    (section 4.5).  [credentialsFile] is [None] when the AWS credentials
    file does not exist; the first section whose header matches the name
    case-insensitively is used; a section without both keys yields no
    credentials. *)
Definition resolveStaticCredentials (credentialsFile : option string)
  (profileName : string) : CredentialsResult :=
  match credentialsFile with
  | None => ProfileNotFoundInCredentialsFile
  | Some content => credentialsInLines profileName (lines content)
  end.

(** ** Atomic save protocol

    Modelled from the spec: the write protocol of ConfigStore.save
    (sections 4.1 and 5).  Each saving process writes the serialised
    document, chunk by chunk, to a temporary path of its own in the same
    directory and then renames it over the configuration file.  Readers
    (ConfigStore.load) read the configuration file; concurrent processes
    interleave their steps arbitrarily. *)
Module AtomicSave.

Definition Content := list string.

Inductive Pc : Type :=
| Opening
| Writing (rest : Content)
| Finished.

(** A saving process: its temporary path is indexed by [wid]; [payload] is
    the serialised document it saves. *)
Record Writer : Type := mkWriter {
  wid : nat;
  payload : Content;
  pc : Pc
}.

Record World : Type := mkWorld {
  target : option Content;
  temp : nat -> option Content;
  writers : list Writer;
  observed : list (option Content)
}.

Definition updTemp (t : nat -> option Content) (i : nat) (v : option Content)
  : nat -> option Content :=
  fun k => if Nat.eqb k i then v else t k.

Definition setPc (ws : list Writer) (i : nat) (p : Pc) : list Writer :=
  map (fun w => if Nat.eqb (wid w) i then mkWriter (wid w) (payload w) p else w) ws.

Inductive step : World -> World -> Prop :=
| step_open : forall W w,
    In w (writers W) -> pc w = Opening ->
    step W (mkWorld (target W) (updTemp (temp W) (wid w) (Some []))
                    (setPc (writers W) (wid w) (Writing (payload w))) (observed W))
| step_write : forall W w c rest pre,
    In w (writers W) -> pc w = Writing (c :: rest) ->
    temp W (wid w) = Some pre ->
    step W (mkWorld (target W) (updTemp (temp W) (wid w) (Some (pre ++ [c])))
                    (setPc (writers W) (wid w) (Writing rest)) (observed W))
| step_rename : forall W w,
    In w (writers W) -> pc w = Writing [] ->
    step W (mkWorld (match temp W (wid w) with
                     | Some t => Some t
                     | None => target W
                     end)
                    (updTemp (temp W) (wid w) None)
                    (setPc (writers W) (wid w) Finished) (observed W))
| step_load : forall W,
    step W (mkWorld (target W) (temp W) (writers W) (target W :: observed W)).

Inductive steps : World -> World -> Prop :=
| steps_refl : forall W, steps W W
| steps_step : forall W1 W2 W3, step W1 W2 -> steps W2 W3 -> steps W1 W3.

Definition initWorld (init : option Content) (stale : nat -> option Content)
  (ws : list Writer) : World :=
  mkWorld init stale ws [].

(** A complete document: the file as it was, or the whole payload of one of
    the saves. *)
Definition complete (init : option Content) (ws : list Writer) (o : option Content)
  : Prop :=
  o = init \/ exists w, In w ws /\ o = Some (payload w).

(** An executable scheduler: one action of one process at a time. *)
Inductive Action : Type :=
| AOpen (i : nat)
| AWrite (i : nat)
| ARename (i : nat)
| ALoad.

Definition findWriter (ws : list Writer) (i : nat) : option Writer :=
  find (fun w => Nat.eqb (wid w) i) ws.

Definition exec (W : World) (a : Action) : option World :=
  match a with
  | ALoad => Some (mkWorld (target W) (temp W) (writers W) (target W :: observed W))
  | AOpen i =>
      match findWriter (writers W) i with
      | Some w =>
          match pc w with
          | Opening =>
              Some (mkWorld (target W) (updTemp (temp W) (wid w) (Some []))
                      (setPc (writers W) (wid w) (Writing (payload w))) (observed W))
          | _ => None
          end
      | None => None
      end
  | AWrite i =>
      match findWriter (writers W) i with
      | Some w =>
          match pc w, temp W (wid w) with
          | Writing (c :: rest), Some pre =>
              Some (mkWorld (target W) (updTemp (temp W) (wid w) (Some (pre ++ [c])))
                      (setPc (writers W) (wid w) (Writing rest)) (observed W))
          | _, _ => None
          end
      | None => None
      end
  | ARename i =>
      match findWriter (writers W) i with
      | Some w =>
          match pc w with
          | Writing [] =>
              Some (mkWorld (match temp W (wid w) with
                             | Some t => Some t
                             | None => target W
                             end)
                      (updTemp (temp W) (wid w) None)
                      (setPc (writers W) (wid w) Finished) (observed W))
          | _ => None
          end
      | None => None
      end
  end.

Fixpoint run (W : World) (schedule : list Action) : option World :=
  match schedule with
  | [] => Some W
  | a :: rest =>
      match exec W a with
      | Some W' => run W' rest
      | None => None
      end
  end.

(** Two processes saving documents while a third one loads. *)
Definition saverA : Writer := mkWriter 0 ["{"; "a"; "}"] Opening.
Definition saverB : Writer := mkWriter 1 ["{"; "b"; "}"] Opening.

Definition interleaving : list Action :=
  [AOpen 0; AWrite 0; AWrite 0; ALoad; AOpen 1; AWrite 1; AWrite 1; AWrite 1;
   ARename 1; ALoad; AWrite 0; ARename 0; ALoad].

Definition idPay (w : Writer) : nat * Content := (wid w, payload w).

(** The invariant of the protocol: the processes keep their identities and
    payloads, the configuration file and every load hold a complete
    document, and the temporary file of a process that is writing holds
    the part of its payload written so far. *)
Definition Inv (init : option Content) (ws : list Writer) (W : World) : Prop :=
  map idPay (writers W) = map idPay ws
  /\ complete init ws (target W)
  /\ (forall o, In o (observed W) -> complete init ws o)
  /\ (forall w rest, In w (writers W) -> pc w = Writing rest ->
        exists pre, temp W (wid w) = Some pre /\ pre ++ rest = payload w).

End AtomicSave.

(** ** Well-formed JSON and fixtures *)

Definition withoutRegion (p : CodeMieConfigOptions) : CodeMieConfigOptions :=
  mkOptions (provider p) (baseUrl p) (apiKey p) (awsSecretAccessKey p) None
    (awsProfile p) (model p) (timeout p) (debug p) (name p).

(** The profile-based Bedrock fixture of the integration tests, with the
    region [us-east-1] and the default test AWS profile. *)
Definition bedrockProfileFixture : CodeMieConfigOptions :=
  mkOptions bedrock (Some "https://bedrock-runtime.us-east-1.amazonaws.com")
    (Some "aws-profile") None (Some "us-east-1")
    (Some "test-codemie-profile")
    (Some "global.anthropic.claude-sonnet-4-5-20250929-v1:0")
    (Some (JNum 300)) None None.

Definition bedrockZeroTimeout : CodeMieConfigOptions :=
  mkOptions bedrock (Some "https://bedrock-runtime.us-east-1.amazonaws.com")
    (Some "aws-profile") None (Some "us-east-1")
    (Some "test-codemie-profile") None (Some (JNum 0)) None None.

(** Keys of an object are pairwise distinct. *)
Fixpoint nodupKeys (ks : list string) : bool :=
  match ks with
  | [] => true
  | k :: r => negb (existsb (String.eqb k) r) && nodupKeys r
  end.

(** The JSON values of the runtime: no object has a repeated key. *)
Fixpoint wfJson (j : json) : bool :=
  match j with
  | JArr xs =>
      (fix wfAll (l : list json) : bool :=
         match l with
         | [] => true
         | x :: r => wfJson x && wfAll r
         end) xs
  | JObj kvs =>
      nodupKeys (map fst kvs)
      && (fix wfMembers (l : list (string * json)) : bool :=
            match l with
            | [] => true
            | (_, v) :: r => wfJson v && wfMembers r
            end) kvs
  | _ => true
  end.

(** The member check of [wfJson], as a function of its own. *)
Fixpoint wfMembers (l : list (string * json)) : bool :=
  match l with
  | [] => true
  | (_, v) :: r => wfJson v && wfMembers r
  end.

Definition wfOptions (p : CodeMieConfigOptions) : bool :=
  match timeout p with
  | Some j => wfJson j
  | None => true
  end.

(** A document the runtime can hold: profile names are distinct keys. *)
Definition wfConfig (d : MultiProviderConfig) : bool :=
  nodupKeys (map fst (profiles d)) && forallb (fun kv => wfOptions (snd kv)) (profiles d).

(** [activeProfile], when present, names a stored profile. *)
Definition activeValid (d : MultiProviderConfig) : bool :=
  match activeProfile d with
  | Some a => match assoc a (profiles d) with Some _ => true | None => false end
  | None => true
  end.

(** ** Fixtures of the integration tests *)

Definition litellmFixture : CodeMieConfigOptions :=
  mkOptions litellm (Some "http://localhost:4000") (Some "sk-test") None None None
    (Some "gpt-4.1") (Some (JNum 300)) None None.

Definition bedrockCredsFixture : CodeMieConfigOptions :=
  mkOptions bedrock (Some "https://bedrock-runtime.us-east-1.amazonaws.com")
    (Some "AKIAEXAMPLE") (Some "secret-example") (Some "us-east-1") None
    (Some "global.anthropic.claude-sonnet-4-5-20250929-v1:0")
    (Some (JNum 300)) None None.

(** The document written by the Profile Status Command suite. *)
Definition profileStatusConfig : MultiProviderConfig :=
  mkConfig 2 (Some "litellm")
    [("litellm", litellmFixture);
     ("bedrock-creds", bedrockCredsFixture);
     ("bedrock-profile", bedrockProfileFixture)].

(** A JSON runtime for concrete runs: text is the JSON value itself, and
    parsing accepts exactly the values without repeated keys. *)
Definition valueParse (j : json) : option json :=
  if wfJson j then Some j else None.

Definition valueStringify (j : json) : json := j.

(** The fixture document as stored by that runtime. *)
Definition fixtureFile : option json := Some (encodeConfig profileStatusConfig).

Definition newline : string := String (ascii_of_nat 10) EmptyString.

Definition joinLines (ls : list string) : string := String.concat newline ls.

(** An AWS credentials file with a default section and the test profile
    written with a different letter case. *)
Definition credentialsFixture : string :=
  joinLines ["[default]"; "aws_access_key_id = AKIADEFAULT";
             "aws_secret_access_key = default-secret";
             "[Test-Codemie-Profile]"; "aws_access_key_id = AKIATEST";
             "aws_secret_access_key = test-secret"; EmptyString].

(** ** Claude plugin installer (src/agents/plugins/claude/claude.plugin-installer.ts)

    The file system is a map from paths (lists of segments, as [join]
    builds them) to file contents; [None] is a missing file.  The base
    class [BaseExtensionInstaller] is not part of the sources, so its
    [install] is a parameter of [install]. *)
Module ClaudePluginInstaller.

Definition Path := list string.
Definition FileSystem := Path -> option string.

Fixpoint pathEqb (p q : Path) : bool :=
  match p, q with
  | [], [] => true
  | a :: p', b :: q' => String.eqb a b && pathEqb p' q'
  | _, _ => false
  end.

(** [join(homedir(), '.codemie', 'claude-plugin')] *)
Definition getTargetPath (home : Path) : Path := home ++ [".codemie"; "claude-plugin"].

Definition getManifestPath : Path := [".claude-plugin"; "plugin.json"].

Definition getCriticalFiles : list Path :=
  [[".claude-plugin"; "plugin.json"]; ["hooks"; "hooks.json"]; ["README.md"]].

Definition existsSync (fs : FileSystem) (p : Path) : bool :=
  match fs p with Some _ => true | None => false end.

(** [fs.rename(src, dst)]: [dst] is replaced by [src], which disappears. *)
Definition rename (fs : FileSystem) (src dst : Path) : FileSystem :=
  fun q => if pathEqb q dst then fs src else if pathEqb q src then None else fs q.

(** [fs.rm(p)] on a file. *)
Definition rm (fs : FileSystem) (p : Path) : FileSystem :=
  fun q => if pathEqb q p then None else fs q.

Definition hooksDir (home : Path) : Path := getTargetPath home ++ ["hooks"].
Definition mainHooks (home : Path) : Path := hooksDir home ++ ["hooks.json"].
Definition windowsHooks (home : Path) : Path := hooksDir home ++ ["hooks.windows.json"].

(** [selectPlatformHooks]; [platform] is [process.platform].  The debug log
    line has no effect on the files. *)
Definition selectPlatformHooks (platform : string) (home : Path) (fs : FileSystem)
  : FileSystem :=
  if existsSync fs (windowsHooks home) then
    if String.eqb platform "win32" then rename fs (windowsHooks home) (mainHooks home)
    else rm fs (windowsHooks home)
  else fs.

Record ExtensionInstallationResult : Type := mkInstallResult {
  success : bool;
  action : string
}.

(** [install]: the base installation, then the hook selection unless it
    failed or found the plugin already installed; the base result is
    returned as it is. *)
Definition install
  (baseInstall : FileSystem -> ExtensionInstallationResult * FileSystem)
  (platform : string) (home : Path) (fs : FileSystem)
  : ExtensionInstallationResult * FileSystem :=
  let (result, fs1) := baseInstall fs in
  if success result && negb (String.eqb (action result) "already_exists")
  then (result, selectPlatformHooks platform home fs1)
  else (result, fs1).



End ClaudePluginInstaller.

(** ** Test harness code of the integration tests *)
Module TestHarness.

Definition sappend (a b : string) : string := String.append a b.

Fixpoint prefixb (p s : string) : bool :=
  match p, s with
  | EmptyString, _ => true
  | String a p', String b s' => Ascii.eqb a b && prefixb p' s'
  | String _ _, EmptyString => false
  end.

(** Substring search. *)
Fixpoint containsb (p s : string) : bool :=
  prefixb p s || match s with
                 | EmptyString => false
                 | String _ s' => containsb p s'
                 end.

(** A profile name the RegExp of the test reads literally: letters, digits,
    [-] and [_]. *)
Definition plainChar (c : ascii) : bool :=
  let n := nat_of_ascii c in
  (Nat.leb 48 n && Nat.leb n 57) || (Nat.leb 65 n && Nat.leb n 90)
  || (Nat.leb 97 n && Nat.leb n 122) || Nat.eqb n 45 || Nat.eqb n 95.

Fixpoint plainName (s : string) : bool :=
  match s with
  | EmptyString => true
  | String c r => plainChar c && plainName r
  end.

Definition DEFAULT_AWS_PROFILE : string := "test-codemie-profile".

(** [process.env.AWS_PROFILE || 'test-codemie-profile'] *)
Definition awsProfileOf (env : option string) : string :=
  match env with
  | Some s => if String.eqb s EmptyString then DEFAULT_AWS_PROFILE else s
  | None => DEFAULT_AWS_PROFILE
  end.

(** [new RegExp(`\\[${awsProfile}\\]`, 'i').test(content)].  For a plain
    [awsProfile] the pattern has no regex syntax besides the escaped
    brackets, and the test is a case-insensitive search for
    [[awsProfile]] (ASCII case folding: no byte of a non-ASCII character
    folds to an ASCII one).  Other names make the pattern read
    metacharacters ([a+], [dev.1]) or throw a SyntaxError; they are outside
    this model, [None]. *)
Definition profileRegexTest (awsProfile content : string) : option bool :=
  if plainName awsProfile then
    Some (containsb (lowerString (sappend "[" (sappend awsProfile "]")))
                    (lowerString content))
  else None.

(** [`\n[${awsProfile}]\naws_access_key_id = ...\naws_secret_access_key = ...\n`] *)
Definition profileSection (awsProfile key secret : string) : string :=
  sappend newline (sappend "[" (sappend awsProfile (sappend "]"
  (sappend newline (sappend "aws_access_key_id = " (sappend key
  (sappend newline (sappend "aws_secret_access_key = " (sappend secret newline))))))))).

(** The credentials file: missing, readable, or present with a content
    that [readFile] cannot read (and [writeFile] can replace, as for a
    write-only file). *)
Inductive CredentialsFile : Type :=
| NoCredentialsFile
| ReadableFile (content : string)
| UnreadableFile (content : string).

(** What the [try]/[catch] around [readFile] gives: [''] on any error. *)
Definition readCredentials (f : CredentialsFile) : string :=
  match f with
  | ReadableFile c => c
  | _ => EmptyString
  end.

(** The bytes on disk. *)
Definition storedContent (f : CredentialsFile) : string :=
  match f with
  | NoCredentialsFile => EmptyString
  | ReadableFile c | UnreadableFile c => c
  end.

(** [writeFile(credentialsFile, c)]: the content is replaced, the
    permissions are kept. *)
Definition writeCredentials (f : CredentialsFile) (c : string) : CredentialsFile :=
  match f with
  | UnreadableFile _ => UnreadableFile c
  | _ => ReadableFile c
  end.

(** The AWS credentials setup of the Profile Status Command suite
    (profile.test.ts, beforeAll): with both keys set, the content read is
    extended with a section for the profile and written back unless the
    RegExp finds a header for it.  [None]: the profile name is outside the
    model of the RegExp. *)
Definition setupAwsCredentials (accessKey secretKey awsProfileEnv : option string)
  (f : CredentialsFile) : option CredentialsFile :=
  let awsProfile := awsProfileOf awsProfileEnv in
  match accessKey, secretKey with
  | Some k, Some s =>
      if nonEmpty (Some k) && nonEmpty (Some s) then
        let content := readCredentials f in
        match profileRegexTest awsProfile content with
        | Some true => Some f
        | Some false =>
            Some (writeCredentials f (sappend content (profileSection awsProfile k s)))
        | None => None
        end
      else Some f
  | _, _ => Some f
  end.

(** Split at every occurrence of a character, empty fields kept. *)
Fixpoint splitOn (sep : ascii) (s : string) : list string :=
  match s with
  | EmptyString => [EmptyString]
  | String c r =>
      if Ascii.eqb c sep then EmptyString :: splitOn sep r
      else match splitOn sep r with
           | [] => [String c EmptyString]
           | l :: ls => String c l :: ls
           end
  end.

Definition space : ascii := " "%char.

(** No occurrence of the separator. *)
Fixpoint noSep (sep : ascii) (s : string) : bool :=
  match s with
  | EmptyString => true
  | String c r => negb (Ascii.eqb c sep) && noSep sep r
  end.
Definition dquote : string := String (ascii_of_nat 34) EmptyString.

(** [`--task "Just say one word: 'Hello'"`] *)
Definition taskFlag : string :=
  sappend "--task " (sappend dquote (sappend "Just say one word: 'Hello'" dquote)).

(** The bin file of an agent in the multi-agent test. *)
Definition binFile (agent : string) : string :=
  if String.eqb agent "codemie-code" then "./bin/agent-executor.js"
  else sappend "./bin/" (sappend agent ".js").

(** The [parts] of the command line: a flag for each truthy option, then
    the task. *)
Definition commandParts (profile model : option string) : list string :=
  (if nonEmpty profile then
     match profile with Some p => [sappend "--profile " p] | None => [] end
   else [])
  ++ (if nonEmpty model then
        match model with Some m => [sappend "--model " m] | None => [] end
      else [])
  ++ [taskFlag].

(** [`node ${binFile} ${argsString}`] with [argsString = parts.join(' ')]. *)
Definition chatCommand (agent : string) (profile model : option string) : string :=
  sappend "node " (sappend (binFile agent)
    (sappend " " (String.concat " " (commandParts profile model)))).

(** Environment values of one provider case of the setup test. *)
Record EnvVars : Type := mkEnvVars {
  evBaseUrl : option string;
  evApiKey : option string;
  evModel : option string;
  evSecretKey : option string;
  evRegion : option string
}.

Definition envVarOf (ev : EnvVars) (key : string) : option string :=
  if String.eqb key "baseUrl" then evBaseUrl ev
  else if String.eqb key "apiKey" then evApiKey ev
  else if String.eqb key "model" then evModel ev
  else if String.eqb key "secretKey" then evSecretKey ev
  else if String.eqb key "region" then evRegion ev
  else None.

Definition requiredVars (profileName : string) : list string :=
  ["baseUrl"; "apiKey"]
  ++ (if String.eqb profileName "bedrock" then ["secretKey"; "region"] else []).

(** [requiredVars.filter(key => !testCase.envVars[key])] *)
Definition missingVars (profileName : string) (ev : EnvVars) : list string :=
  filter (fun k => negb (nonEmpty (envVarOf ev k))) (requiredVars profileName).

(** [buildProfile] of the LiteLLM and Bedrock cases. *)
Definition buildLitellm (ev : EnvVars) : CodeMieConfigOptions :=
  mkOptions litellm (evBaseUrl ev) (evApiKey ev) None None None (evModel ev)
    (Some (JNum 300)) None None.

Definition buildBedrock (ev : EnvVars) : CodeMieConfigOptions :=
  mkOptions bedrock (evBaseUrl ev) (evApiKey ev) (evSecretKey ev) (evRegion ev) None
    (evModel ev) (Some (JNum 300)) (Some false) (Some "bedrock").

Definition buildProfile (profileName : string) (ev : EnvVars) : CodeMieConfigOptions :=
  if String.eqb profileName "bedrock" then buildBedrock ev else buildLitellm ev.

(** The document the setup test writes for a provider case. *)
Definition setupConfig (profileName : string) (ev : EnvVars) : MultiProviderConfig :=
  mkConfig 2 (Some profileName) [(profileName, buildProfile profileName ev)].

(** The fields a flag contributes to the command line when split at its
    spaces. *)
Definition optFields (flag : string) (o : option string) : list string :=
  match o with
  | Some v => if String.eqb v EmptyString then [] else [flag; v]
  | None => []
  end.

(** What [execSync] gives back: the output of a command that exited with
    status 0, or the error it throws ([status] is [null] for a command
    killed by a signal or the timeout). *)
Record ExecError : Type := mkExecError {
  errStatus : option Z;
  errStdout : option string;
  errStderr : option string;
  errMessage : string
}.

Inductive ExecResult : Type :=
| ExecOk (output : string)
| ExecFailed (e : ExecError).

Record AgentCommandResult : Type := mkAgentResult {
  rOutput : string;
  rExitCode : Z;
  rError : option string
}.

(** [runAgentCommand] of the Agent Shortcuts suite:
    [exitCode: error.status || 1] and
    [error: error.stderr?.toString() || error.message]. *)
Definition runAgentCommand (r : ExecResult) : AgentCommandResult :=
  match r with
  | ExecOk out => mkAgentResult out 0 None
  | ExecFailed e =>
      mkAgentResult
        (match errStdout e with Some o => o | None => EmptyString end)
        (match errStatus e with
         | Some st => if Z.eqb st 0 then 1 else st
         | None => 1
         end)
        (Some (match errStderr e with
               | Some m => if String.eqb m EmptyString then errMessage e else m
               | None => errMessage e
               end))
  end.

(** Environment values of a complete Bedrock case. *)
Definition bedrockEnvVars : EnvVars :=
  mkEnvVars (Some "https://bedrock.example") (Some "AKIA1") None (Some "s3cr3t")
    (Some "us-east-1").

End TestHarness.

(** * Properties *)

(** ** CredentialValidator *)

Lemma validate_Valid_iff (p : CodeMieConfigOptions) :
  provider p = bedrock ->
  validate p = Valid <->
  nonEmpty (baseUrl p) = true /\ nonEmpty (awsRegion p) = true
  /\ bedrockAuthOk p = true /\ timeoutOk (timeout p) = true.
Proof.
  intros Hb. unfold validate, require. rewrite Hb.
  destruct (nonEmpty (baseUrl p)), (nonEmpty (awsRegion p)),
    (bedrockAuthOk p), (timeoutOk (timeout p));
    simpl; intuition discriminate.
Qed.

Lemma bedrockAuthOk_true (p : CodeMieConfigOptions) :
  bedrockAuthOk p = true <->
  nonEmpty (awsProfile p) = true
  \/ (nonEmpty (apiKey p) = true /\ nonEmpty (awsSecretAccessKey p) = true).
Proof.
  unfold bedrockAuthOk. rewrite orb_true_iff, andb_true_iff. reflexivity.
Qed.

(** C2 (amended).  A Bedrock profile is [Valid] exactly when [baseUrl] and
    [awsRegion] are non-empty, one authentication mode is satisfiable
    ([awsProfile], or [apiKey] and [awsSecretAccessKey]) and [timeout], if
    present, is a positive integer; with no satisfiable mode the result is
    [Invalid] naming both combinations; removing [awsRegion] from a valid
    Bedrock profile makes it [Invalid] naming [awsRegion]. *)
Theorem validate_bedrock (p : CodeMieConfigOptions) (Hb : provider p = bedrock) :
  (validate p = Valid <->
   nonEmpty (baseUrl p) = true /\ nonEmpty (awsRegion p) = true
   /\ (nonEmpty (awsProfile p) = true
       \/ (nonEmpty (apiKey p) = true /\ nonEmpty (awsSecretAccessKey p) = true))
   /\ timeoutOk (timeout p) = true)
  /\ (bedrockAuthOk p = false ->
      exists missing, validate p = Invalid missing
        /\ In MF_authAwsProfile missing /\ In MF_authStaticKeys missing)
  /\ (validate p = Valid ->
      exists missing, validate (withoutRegion p) = Invalid missing
        /\ In MF_awsRegion missing).
Proof.
  split; [|split].
  - rewrite (validate_Valid_iff p Hb), bedrockAuthOk_true. reflexivity.
  - intros Ha. unfold validate, require. rewrite Hb, Ha.
    destruct (nonEmpty (baseUrl p)), (nonEmpty (awsRegion p)),
      (timeoutOk (timeout p)); simpl;
      (eexists; split; [reflexivity | simpl; tauto]).
  - intros Hv. apply (validate_Valid_iff p Hb) in Hv.
    destruct Hv as (Hu & _ & Ha & Ht).
    unfold validate, require, withoutRegion. simpl. rewrite Hb.
    unfold bedrockAuthOk in *. simpl. rewrite Hu, Ha, Ht. simpl.
    eexists. split; [reflexivity | simpl; auto].
Qed.

Lemma validate_bedrock_witness :
  exists missing, validate (withoutRegion bedrockProfileFixture) = Invalid missing
    /\ In MF_awsRegion missing.
Proof.
  destruct (validate_bedrock bedrockProfileFixture eq_refl) as (_ & _ & H).
  apply H. vm_compute. reflexivity.
Defined.

(** C2 counterexample: a Bedrock profile with [baseUrl], [awsRegion] and
    [awsProfile] set is not [Valid] when its [timeout] is 0. *)
Lemma validate_bedrock_zero_timeout :
  nonEmpty (baseUrl bedrockZeroTimeout) = true
  /\ nonEmpty (awsRegion bedrockZeroTimeout) = true
  /\ nonEmpty (awsProfile bedrockZeroTimeout) = true
  /\ validate bedrockZeroTimeout = Invalid [MF_timeout].
Proof. vm_compute. repeat split. Qed.

(** ** ConfigResolver: choice of the base profile *)

(** C1.  The base profile is the stored profile named by [--profile] when the
    flag is given; otherwise the stored profile named by [activeProfile];
    the environment is read only when there is no flag and no stored active
    profile (no document, or a document without [activeProfile]), and does
    not affect the result otherwise; resolution fails with
    [NoActiveProfile] exactly when no base profile is found. *)
Theorem resolve_precedence (flags : Flags) (doc : option MultiProviderConfig)
  (env env' : Env) :
  (forall n d p, flagProfile flags = Some n -> doc = Some d ->
     assoc n (profiles d) = Some p ->
     baseProfile flags doc env = Some (Some n, p))
  /\ (forall d a p, flagProfile flags = None -> doc = Some d ->
        activeProfile d = Some a -> assoc a (profiles d) = Some p ->
        baseProfile flags doc env = Some (Some a, p))
  /\ (flagProfile flags = None ->
      (doc = None \/ exists d, doc = Some d /\ activeProfile d = None) ->
      baseProfile flags doc env =
        match envProfile env with Some p => Some (None, p) | None => None end)
  /\ ((flagProfile flags <> None
       \/ exists d a, doc = Some d /\ activeProfile d = Some a) ->
      baseProfile flags doc env = baseProfile flags doc env')
  /\ (resolve flags doc env = NoActiveProfile <->
      baseProfile flags doc env = None).
Proof.
  split; [|split; [|split; [|split]]].
  - intros n d p Hf Hd Hp. unfold baseProfile. rewrite Hf, Hd, Hp. reflexivity.
  - intros d a p Hf Hd Ha Hp. unfold baseProfile. rewrite Hf, Hd, Ha, Hp.
    reflexivity.
  - intros Hf [Hd | (d & Hd & Ha)]; unfold baseProfile; rewrite Hf, Hd;
      [|rewrite Ha]; reflexivity.
  - intros [Hf | (d & a & Hd & Ha)]; unfold baseProfile.
    + destruct (flagProfile flags); [reflexivity | congruence].
    + rewrite Hd, Ha. destruct (flagProfile flags); reflexivity.
  - unfold resolve. destruct (baseProfile flags doc env) as [[nm p]|].
    + destruct (validate (applyOverrides flags p)); split; discriminate.
    + split; reflexivity.
Qed.

(** ** Serialisation round trip *)

Lemma decodeOptions_encodeOptions (p : CodeMieConfigOptions) :
  decodeOptions (encodeOptions p) = Some p.
Proof.
  destruct p as [pr bu ak sk rg ap md to db nm].
  destruct pr, bu, ak, sk, rg, ap, md, to, db, nm; reflexivity.
Qed.

Lemma decodeProfiles_encode (ps : list (string * CodeMieConfigOptions)) :
  decodeProfiles (map (fun kv => (fst kv, encodeOptions (snd kv))) ps) = Some ps.
Proof.
  induction ps as [|[k p] ps IH]; [reflexivity|].
  cbn [map decodeProfiles fst snd].
  rewrite decodeOptions_encodeOptions, IH. reflexivity.
Qed.

Lemma decodeConfig_encodeConfig (d : MultiProviderConfig) :
  version d = CURRENT_VERSION -> decodeConfig (encodeConfig d) = Loaded d.
Proof.
  intros Hv. destruct d as [v a ps]. simpl in Hv. subst v.
  unfold encodeConfig, decodeConfig. simpl.
  rewrite decodeProfiles_encode. unfold decodeActive. simpl.
  destruct a; reflexivity.
Qed.

Lemma wfJson_encodeOptions (p : CodeMieConfigOptions) :
  wfOptions p = true -> wfJson (encodeOptions p) = true.
Proof.
  destruct p as [pr bu ak sk rg ap md to db nm]. unfold wfOptions. simpl.
  intros H.
  destruct pr, bu, ak, sk, rg, ap, md, to, db, nm; cbn; try rewrite H;
    reflexivity.
Qed.

Lemma map_fst_encode (ps : list (string * CodeMieConfigOptions)) :
  map fst (map (fun kv => (fst kv, encodeOptions (snd kv))) ps) = map fst ps.
Proof. rewrite map_map. reflexivity. Qed.

Lemma wfJson_encodeConfig (d : MultiProviderConfig) :
  wfConfig d = true -> wfJson (encodeConfig d) = true.
Proof.
  destruct d as [v a ps]. unfold wfConfig. simpl.
  rewrite andb_true_iff. intros [Hk Ho].
  unfold encodeConfig. cbn -[encodeOptions nodupKeys].
  rewrite map_fst_encode, Hk.
  destruct a; cbn -[encodeOptions nodupKeys]; rewrite andb_true_r; clear Hk;
  (induction ps as [|[k p] ps IH]; [reflexivity|]);
  simpl in Ho; rewrite andb_true_iff in Ho; destruct Ho as [Hp Ho];
  cbn -[encodeOptions]; rewrite wfJson_encodeOptions by exact Hp;
  apply IH; exact Ho.
Qed.

Lemma wfJson_JObj (kvs : list (string * json)) :
  wfJson (JObj kvs) = nodupKeys (map fst kvs) && wfMembers kvs.
Proof. reflexivity. Qed.

Lemma wfMembers_assoc (kvs : list (string * json)) (k : string) (v : json) :
  wfMembers kvs = true -> assoc k kvs = Some v -> wfJson v = true.
Proof.
  induction kvs as [|[k' v'] kvs IH]; simpl; [discriminate|].
  rewrite andb_true_iff. intros [Hv Hr].
  destruct (String.eqb k k'); [congruence | auto].
Qed.

Lemma wfJson_assoc (kvs : list (string * json)) (k : string) (v : json) :
  wfJson (JObj kvs) = true -> assoc k kvs = Some v -> wfJson v = true.
Proof.
  rewrite wfJson_JObj, andb_true_iff. intros [_ H]. apply wfMembers_assoc, H.
Qed.

Ltac destruct_matches_in H :=
  repeat match type of H with
  | context [match ?x with _ => _ end] => destruct x eqn:?
  end.

Lemma decodeOptions_wf (v : json) (p : CodeMieConfigOptions) :
  decodeOptions v = Some p -> wfJson v = true -> wfOptions p = true.
Proof.
  intros H Hwf. destruct v as [| | | | |kvs]; try discriminate.
  unfold decodeOptions in H. destruct_matches_in H; try discriminate.
  injection H as <-. unfold wfOptions. simpl.
  destruct (assoc "timeout" kvs) eqn:Ht; [|reflexivity].
  eapply wfJson_assoc; eassumption.
Qed.

Lemma decodeProfiles_wf (ps : list (string * json))
  (qs : list (string * CodeMieConfigOptions)) :
  decodeProfiles ps = Some qs -> wfMembers ps = true ->
  map fst qs = map fst ps /\ forallb (fun kv => wfOptions (snd kv)) qs = true.
Proof.
  revert qs. induction ps as [|[k v] ps IH]; intros qs H Hwf.
  - injection H as <-. split; reflexivity.
  - simpl in H, Hwf. rewrite andb_true_iff in Hwf. destruct Hwf as [Hv Hr].
    destruct (decodeOptions v) as [p|] eqn:Hp; [|discriminate].
    destruct (decodeProfiles ps) as [qs'|] eqn:Hq; [|discriminate].
    injection H as <-. destruct (IH qs' eq_refl Hr) as [Hk Ho].
    simpl. rewrite Hk, Ho, (decodeOptions_wf v p Hp Hv). split; reflexivity.
Qed.

Lemma decodeConfig_wf (j : json) (d : MultiProviderConfig) :
  decodeConfig j = Loaded d -> wfJson j = true ->
  wfConfig d = true /\ version d = CURRENT_VERSION.
Proof.
  intros H Hwf. destruct j as [| | | | |kvs]; try discriminate.
  unfold decodeConfig in H.
  destruct (assoc "version" kvs) as [[| | v | | |]|]; try discriminate.
  destruct (Z.eqb v CURRENT_VERSION) eqn:Hv; [|discriminate].
  destruct (decodeActive kvs) as [a|]; [|discriminate].
  destruct (assoc "profiles" kvs) as [[| | | | |ps]|] eqn:Hps; try discriminate.
  destruct (decodeProfiles ps) as [qs|] eqn:Hq; [|discriminate].
  injection H as <-.
  pose proof (wfJson_assoc kvs "profiles" (JObj ps) Hwf Hps) as Hw.
  rewrite wfJson_JObj, andb_true_iff in Hw. destruct Hw as [Hk Hm].
  destruct (decodeProfiles_wf ps qs Hq Hm) as [Hf Ho].
  unfold wfConfig; simpl. rewrite Hf, Hk, Ho.
  split; [reflexivity | apply Z.eqb_eq; exact Hv].
Qed.

(** ** Association lists *)

Lemma assoc_app_some {A : Type} (k : string) (l l' : list (string * A)) (v : A) :
  assoc k l = Some v -> assoc k (l ++ l') = Some v.
Proof.
  induction l as [|[k' v'] l IH]; simpl; [discriminate|].
  destruct (String.eqb k k'); auto.
Qed.

Lemma assoc_removeKey_ne {A : Type} (k n : string) (l : list (string * A)) :
  k <> n -> assoc k (removeKey n l) = assoc k l.
Proof.
  intros Hne. induction l as [|[k' v'] l IH]; simpl; [reflexivity|].
  destruct (String.eqb n k') eqn:Hn; simpl.
  - apply String.eqb_eq in Hn. subst k'.
    apply String.eqb_neq in Hne. rewrite Hne. exact IH.
  - destruct (String.eqb k k'); [reflexivity | exact IH].
Qed.

Lemma assoc_None_keys {A : Type} (k : string) (l : list (string * A)) :
  assoc k l = None -> existsb (String.eqb k) (map fst l) = false.
Proof.
  induction l as [|[k' v'] l IH]; simpl; [reflexivity|].
  destruct (String.eqb k k'); [discriminate | exact IH].
Qed.

Lemma existsb_app_single (k n : string) (ks : list string) :
  existsb (String.eqb k) (ks ++ [n]) = existsb (String.eqb k) ks || String.eqb k n.
Proof.
  induction ks as [|k' ks IH]; simpl; [apply orb_false_r|].
  rewrite IH, orb_assoc. reflexivity.
Qed.

Lemma nodupKeys_snoc (ks : list string) (n : string) :
  nodupKeys ks = true -> existsb (String.eqb n) ks = false ->
  nodupKeys (ks ++ [n]) = true.
Proof.
  induction ks as [|k ks IH]; simpl; intros H Hn; [reflexivity|].
  rewrite andb_true_iff in H. destruct H as [Hk H].
  rewrite orb_false_iff in Hn. destruct Hn as [Hnk Hn].
  rewrite existsb_app_single, IH by assumption.
  rewrite String.eqb_sym in Hnk. rewrite Hnk, orb_false_r, Hk. reflexivity.
Qed.

Lemma existsb_filter (k : string) (f : string * CodeMieConfigOptions -> bool)
  (l : list (string * CodeMieConfigOptions)) :
  existsb (String.eqb k) (map fst l) = false ->
  existsb (String.eqb k) (map fst (filter f l)) = false.
Proof.
  induction l as [|[k' v'] l IH]; simpl; [reflexivity|].
  rewrite orb_false_iff. intros [H1 H2].
  destruct (f (k', v')); simpl; rewrite ?H1, IH by assumption; reflexivity.
Qed.

Lemma wfConfig_filter (v : Z) (a : option string)
  (f : string * CodeMieConfigOptions -> bool) (l : list (string * CodeMieConfigOptions)) :
  wfConfig (mkConfig v a l) = true -> wfConfig (mkConfig v a (filter f l)) = true.
Proof.
  unfold wfConfig; simpl. induction l as [|[k p] l IH]; simpl; [auto|].
  intros H. rewrite !andb_true_iff in H. destruct H as [[Hk Hn] [Hp Ho]].
  assert (IH' := IH ltac:(rewrite Hn, Ho; reflexivity)).
  destruct (f (k, p)); simpl.
  - rewrite existsb_filter by (apply negb_true_iff; exact Hk).
    rewrite Hp. rewrite andb_true_iff in IH'. destruct IH' as [A B].
    rewrite A, B. reflexivity.
  - exact IH'.
Qed.

Lemma wfConfig_snoc (v : Z) (a : option string) (l : list (string * CodeMieConfigOptions))
  (n : string) (p : CodeMieConfigOptions) :
  wfConfig (mkConfig v a l) = true -> assoc n l = None -> wfOptions p = true ->
  wfConfig (mkConfig v a (l ++ [(n, p)])) = true.
Proof.
  unfold wfConfig; simpl. rewrite !andb_true_iff. intros [Hk Ho] Hn Hp.
  rewrite map_app, forallb_app. simpl.
  rewrite nodupKeys_snoc by (auto using assoc_None_keys).
  rewrite Ho, Hp. auto.
Qed.

(** ** ConfigStore and ProfileRegistry laws

    The JSON runtime is assumed to behave as [JSON.parse] and
    [JSON.stringify] do on the values they exchange: a parsed value has no
    repeated object key, and printing a value and parsing it back gives the
    value. *)
Section StoreLaws.

Context {text : Type}.
Variable parseJson : text -> option json.
Variable stringifyJson : json -> text.
Hypothesis parse_wf : forall t j, parseJson t = Some j -> wfJson j = true.
Hypothesis parse_stringify :
  forall j, wfJson j = true -> parseJson (stringifyJson j) = Some j.

Lemma load_save (d : MultiProviderConfig) (file : option text) :
  version d = CURRENT_VERSION -> wfConfig d = true ->
  load parseJson (save stringifyJson d file) = Loaded d.
Proof.
  intros Hv Hw. unfold load, save.
  rewrite parse_stringify by (apply wfJson_encodeConfig; exact Hw).
  apply decodeConfig_encodeConfig, Hv.
Qed.

Lemma load_inv (file : option text) (d : MultiProviderConfig) :
  load parseJson file = Loaded d ->
  wfConfig d = true /\ version d = CURRENT_VERSION.
Proof.
  unfold load. destruct file as [t|]; [|discriminate].
  destruct (parseJson t) as [j|] eqn:Hp; [|discriminate].
  intros H. apply (decodeConfig_wf j d H (parse_wf t j Hp)).
Qed.

(** C7.  Saving a document of the current version whose profile names are
    distinct and loading it back gives the same document: same version,
    same [activeProfile], same profile names in the same order, same
    profiles. *)
Theorem save_then_load (d : MultiProviderConfig) (file : option text)
  (Hv : version d = CURRENT_VERSION) (Hw : wfConfig d = true) :
  load parseJson (save stringifyJson d file) = Loaded d.
Proof. exact (load_save d file Hv Hw). Qed.

(** C4.  Switching to a name absent from the profiles fails with
    [ProfileNotFound] and leaves the file as it was; switching to a present
    name succeeds and the reloaded document differs from the old one only
    in [activeProfile], now that name. *)
Theorem switchActive_frame (n : string) (file : option text) :
  (forall d, load parseJson file = Loaded d -> assoc n (profiles d) = None ->
     switchActive parseJson stringifyJson n file = (Failed ProfileNotFound, file))
  /\ (forall d p, load parseJson file = Loaded d -> assoc n (profiles d) = Some p ->
        fst (switchActive parseJson stringifyJson n file) = Done
        /\ load parseJson (snd (switchActive parseJson stringifyJson n file))
           = Loaded (mkConfig (version d) (Some n) (profiles d))).
Proof.
  split.
  - intros d Hl Hn. unfold switchActive. rewrite Hl, Hn. reflexivity.
  - intros d p Hl Hn. unfold switchActive. rewrite Hl, Hn. simpl.
    destruct (load_inv file d Hl) as [Hw Hv].
    split; [reflexivity|]. exact (load_save (setActive d (Some n)) file Hv Hw).
Qed.

Lemma load_unchanged_or_saved (file : option text) (d : MultiProviderConfig) :
  load parseJson file = Loaded d -> version d = CURRENT_VERSION /\ wfConfig d = true.
Proof. intros H. destruct (load_inv file d H). split; assumption. Qed.

(** C5.  [add], [switchActive] and [delete] keep [activeProfile], when
    present, pointing at a stored profile; deleting the active profile
    succeeds, clears [activeProfile], and a following invocation without
    flags and without provider-scoped environment variables fails with
    [NoActiveProfile]. *)
Theorem registry_active_invariant (file : option text)
  (Hinv : forall d, load parseJson file = Loaded d -> activeValid d = true) :
  (forall n p d, wfOptions p = true ->
     load parseJson (snd (add parseJson stringifyJson n p file)) = Loaded d ->
     activeValid d = true)
  /\ (forall n d,
        load parseJson (snd (switchActive parseJson stringifyJson n file)) = Loaded d ->
        activeValid d = true)
  /\ (forall n d,
        load parseJson (snd (delete parseJson stringifyJson n file)) = Loaded d ->
        activeValid d = true)
  /\ (forall d n, load parseJson file = Loaded d -> activeProfile d = Some n ->
        fst (delete parseJson stringifyJson n file) = Done
        /\ (exists d', load parseJson (snd (delete parseJson stringifyJson n file))
                       = Loaded d' /\ activeProfile d' = None)
        /\ (forall env, envProfile env = None ->
              fst (invoke parseJson noFlags env
                     (snd (delete parseJson stringifyJson n file)))
              = InvResolved NoActiveProfile)).
Proof.
  split; [|split; [|split]].
  - (* add *)
    intros n p d Hp. unfold add.
    destruct (load parseJson file) as [d0|[| |]] eqn:Hl; cbn [fst snd].
    + destruct (load_inv file d0 Hl) as [Hw Hv].
      destruct (assoc n (profiles d0)) eqn:Ha; cbn [fst snd].
      * rewrite Hl. intros H. injection H as <-.
        apply Hinv; first [reflexivity | exact Hl].
      * destruct d0 as [v a ps]. cbn [profiles activeProfile version fst snd] in *.
        rewrite (load_save _ file) by (simpl; auto using wfConfig_snoc).
        intros H. injection H as <-. unfold activeValid in *.
        cbn [profiles activeProfile version fst snd] in *.
        specialize (Hinv _ eq_refl). simpl in Hinv.
        destruct a as [a|]; [|reflexivity].
        destruct (assoc a ps) eqn:Ha'; [|discriminate].
        rewrite (assoc_app_some _ _ _ _ Ha'). reflexivity.
    + rewrite (load_save _ file).
      * intros H. injection H as <-. reflexivity.
      * reflexivity.
      * unfold wfConfig. simpl. rewrite Hp. reflexivity.
    + rewrite Hl. discriminate.
    + rewrite Hl. discriminate.
  - (* switchActive *)
    intros n d. unfold switchActive.
    destruct (load parseJson file) as [d0|e] eqn:Hl; cbn [fst snd].
    + destruct (load_inv file d0 Hl) as [Hw Hv].
      destruct (assoc n (profiles d0)) eqn:Ha; cbn [fst snd].
      * rewrite (load_save _ file) by assumption.
        intros H. injection H as <-. unfold activeValid. simpl. rewrite Ha.
        reflexivity.
      * rewrite Hl. intros H. injection H as <-.
        apply Hinv; first [reflexivity | exact Hl].
    + rewrite Hl. discriminate.
  - (* delete *)
    intros n d. unfold delete.
    destruct (load parseJson file) as [d0|e] eqn:Hl; cbn [fst snd].
    + destruct (load_inv file d0 Hl) as [Hw Hv].
      destruct (assoc n (profiles d0)) eqn:Ha; cbn [fst snd].
      * destruct d0 as [v a ps]. cbn [profiles activeProfile version fst snd] in *.
        rewrite (load_save _ file).
        -- intros H. injection H as <-. unfold activeValid in *. simpl.
           specialize (Hinv _ eq_refl). simpl in Hinv.
           destruct a as [a|]; [|reflexivity].
           destruct (String.eqb a n) eqn:Han; [reflexivity|].
           apply String.eqb_neq in Han. rewrite assoc_removeKey_ne by exact Han.
           exact Hinv.
        -- exact Hv.
        -- apply wfConfig_filter. destruct a as [a|]; [destruct (String.eqb a n)|];
             exact Hw.
      * rewrite Hl. intros H. injection H as <-.
        apply Hinv; first [reflexivity | exact Hl].
    + rewrite Hl. discriminate.
  - (* deleting the active profile *)
    intros d n Hl Hact.
    destruct (load_inv file d Hl) as [Hw Hv].
    pose proof (Hinv d Hl) as Hd. unfold activeValid in Hd. rewrite Hact in Hd.
    destruct (assoc n (profiles d)) as [p|] eqn:Ha; [|discriminate].
    destruct d as [v a ps]. cbn [profiles activeProfile version fst snd] in *. subst a.
    assert (Hw' : wfConfig (mkConfig v None (removeKey n ps)) = true)
      by (apply wfConfig_filter; exact Hw).
    unfold delete. rewrite Hl. cbn [profiles activeProfile version].
    rewrite Ha, String.eqb_refl. cbn [fst snd].
    split; [reflexivity|split].
    + exists (mkConfig v None (removeKey n ps)). split; [|reflexivity].
      exact (load_save (mkConfig v None (removeKey n ps)) file Hv Hw').
    + intros env Henv. unfold invoke.
      rewrite (load_save (mkConfig v None (removeKey n ps)) file Hv Hw').
      simpl. unfold resolve, baseProfile. simpl. rewrite Henv. reflexivity.
Qed.

End StoreLaws.

(** Sanity runs of the model on the fixtures. *)
Example resolve_default_fixture :
  resolve noFlags (Some profileStatusConfig) [] =
  Resolved (mkEffective (Some "litellm") litellmFixture true).
Proof. vm_compute. reflexivity. Qed.

Example credentials_fixture_lookup :
  resolveStaticCredentials (Some credentialsFixture) "test-codemie-profile" =
  StaticCredentials "AKIATEST" "test-secret".
Proof. vm_compute. reflexivity. Qed.

Lemma resolve_precedence_witness :
  baseProfile (mkFlags (Some "bedrock-creds") None None) (Some profileStatusConfig) []
  = Some (Some "bedrock-creds", bedrockCredsFixture).
Proof.
  destruct (resolve_precedence (mkFlags (Some "bedrock-creds") None None)
              (Some profileStatusConfig) [] []) as (H & _).
  apply (H "bedrock-creds" profileStatusConfig); reflexivity.
Defined.

(** ** ConfigResolver: the active marker *)

(** C3.  A resolved profile is marked active exactly when its name is the
    persisted [activeProfile], whatever flag selected it; selecting with
    [--profile] a stored profile that is not the active one resolves to
    that profile's fields (with the field overrides) marked inactive; an
    invocation only reads the configuration file. *)
Theorem resolve_isActive (flags : Flags) (d : MultiProviderConfig) (env : Env) :
  (forall e, resolve flags (Some d) env = Resolved e ->
     (isActive e = true <-> exists n, effName e = Some n /\ activeProfile d = Some n))
  /\ (forall n p, flagProfile flags = Some n -> assoc n (profiles d) = Some p ->
        activeProfile d <> Some n -> validate (applyOverrides flags p) = Valid ->
        resolve flags (Some d) env
        = Resolved (mkEffective (Some n) (applyOverrides flags p) false))
  /\ (forall (text : Type) (parse : text -> option json) (file : option text),
        snd (invoke parse flags env file) = file).
Proof.
  split; [|split].
  - intros e. unfold resolve.
    destruct (baseProfile flags (Some d) env) as [[nm p]|]; [|discriminate].
    destruct (validate (applyOverrides flags p)); [|discriminate].
    intros H. injection H as <-. simpl.
    destruct nm as [n|]; simpl.
    + destruct (activeProfile d) as [a|]; split.
      * intros H. apply String.eqb_eq in H. subst. eauto.
      * intros (n' & Hn & Ha). injection Hn as <-. injection Ha as <-.
        apply String.eqb_refl.
      * discriminate.
      * intros (n' & _ & Ha). discriminate.
    + split; [discriminate | intros (n' & Hn & _); discriminate].
  - intros n p Hf Hp Hna Hv. unfold resolve, baseProfile.
    rewrite Hf, Hp, Hv. unfold isActiveMarker.
    destruct (activeProfile d) as [a|] eqn:Ha; [|reflexivity].
    destruct (String.eqb n a) eqn:Hna'; [|reflexivity].
    apply String.eqb_eq in Hna'. subst. contradiction.
  - intros text parse file. unfold invoke.
    destruct (load parse file) as [d'|[| |]]; reflexivity.
Qed.

Lemma resolve_isActive_witness :
  resolve (mkFlags (Some "bedrock-creds") None None) (Some profileStatusConfig) []
  = Resolved (mkEffective (Some "bedrock-creds") bedrockCredsFixture false).
Proof.
  destruct (resolve_isActive (mkFlags (Some "bedrock-creds") None None)
              profileStatusConfig []) as (_ & H & _).
  apply (H "bedrock-creds" bedrockCredsFixture);
    [reflexivity | reflexivity | vm_compute; discriminate | vm_compute; reflexivity].
Defined.

(** ** ConfigStore.load outcomes *)

(** C6.  A missing file is [NotFound]; text that does not parse, or a
    top-level value that is not an object, is [ConfigCorrupt]; an object
    whose [version] is missing, not a number or not the current version is
    [VersionUnsupported]; none of these is a loaded document, and the three
    error kinds are distinct. *)
Theorem load_outcomes {text : Type} (parse : text -> option json)
  (file : option text) :
  (file = None -> load parse file = LoadFailed NotFound)
  /\ (forall t, file = Some t -> parse t = None ->
        load parse file = LoadFailed ConfigCorrupt)
  /\ (forall t j, file = Some t -> parse t = Some j ->
        (forall kvs, j <> JObj kvs) -> load parse file = LoadFailed ConfigCorrupt)
  /\ (forall t kvs, file = Some t -> parse t = Some (JObj kvs) ->
        (forall v, assoc "version" kvs = Some (JNum v) -> v <> CURRENT_VERSION) ->
        load parse file = LoadFailed VersionUnsupported)
  /\ (forall d e, Loaded d <> LoadFailed e)
  /\ NotFound <> ConfigCorrupt /\ NotFound <> VersionUnsupported
  /\ ConfigCorrupt <> VersionUnsupported.
Proof.
  split; [|split; [|split; [|split]]].
  - intros ->. reflexivity.
  - intros t -> Hp. simpl. rewrite Hp. reflexivity.
  - intros t j -> Hp Hj. simpl. rewrite Hp.
    destruct j as [| | | | |kvs]; try reflexivity. exfalso. exact (Hj kvs eq_refl).
  - intros t kvs -> Hp Hv. simpl. rewrite Hp. simpl.
    destruct (assoc "version" kvs) as [[| | v | | |]|]; try reflexivity.
    destruct (Z.eqb v CURRENT_VERSION) eqn:E; [|reflexivity].
    apply Z.eqb_eq in E. exfalso. exact (Hv v eq_refl E).
  - repeat split; discriminate.
Qed.

Lemma load_outcomes_witness :
  load valueParse (Some (JObj [("version", JNum 1)])) = LoadFailed VersionUnsupported.
Proof.
  destruct (load_outcomes valueParse (Some (JObj [("version", JNum 1)])))
    as (_ & _ & _ & H & _).
  apply (H (JObj [("version", JNum 1)]) [("version", JNum 1)]); try reflexivity.
  intros v Hv. simpl in Hv. injection Hv as <-. discriminate.
Defined.

(** ** The concrete JSON runtime satisfies the store assumptions *)

Lemma valueParse_wf (t j : json) : valueParse t = Some j -> wfJson j = true.
Proof.
  unfold valueParse. destruct (wfJson t) eqn:E; [|discriminate].
  intros H. injection H as <-. exact E.
Qed.

Lemma valueParse_stringify (j : json) :
  wfJson j = true -> valueParse (valueStringify j) = Some j.
Proof. unfold valueParse, valueStringify. intros ->. reflexivity. Qed.

Lemma save_then_load_witness :
  load valueParse (save valueStringify profileStatusConfig None)
  = Loaded profileStatusConfig.
Proof.
  refine (save_then_load valueParse valueStringify valueParse_stringify
            profileStatusConfig None _ _);
    vm_compute; reflexivity.
Defined.

Lemma switchActive_frame_witness :
  fst (switchActive valueParse valueStringify "bedrock-profile" fixtureFile) = Done
  /\ load valueParse
       (snd (switchActive valueParse valueStringify "bedrock-profile" fixtureFile))
     = Loaded (mkConfig 2 (Some "bedrock-profile") (profiles profileStatusConfig)).
Proof.
  destruct (switchActive_frame valueParse valueStringify valueParse_wf
              valueParse_stringify "bedrock-profile" fixtureFile) as (_ & H).
  apply (H profileStatusConfig bedrockProfileFixture);
    vm_compute; reflexivity.
Defined.

Lemma registry_active_invariant_witness :
  fst (invoke valueParse noFlags []
         (snd (delete valueParse valueStringify "litellm" fixtureFile)))
  = InvResolved NoActiveProfile.
Proof.
  destruct (registry_active_invariant valueParse valueStringify valueParse_wf
              valueParse_stringify fixtureFile) as (_ & _ & _ & H).
  - intros d Hd. vm_compute in Hd. injection Hd as <-. vm_compute. reflexivity.
  - apply (H profileStatusConfig "litellm"); vm_compute; reflexivity.
Defined.

(** ** AwsProfileLookup *)

Lemma findSection_none (n : string) (ls : list IniLine) :
  (forall h, In (Header h) ls -> sameSection h n = false) ->
  findSection n ls = None.
Proof.
  induction ls as [|l ls IH]; intros H; simpl; [reflexivity|].
  destruct l as [h| |].
  - rewrite (H h (or_introl eq_refl)). apply IH. intros h' Hin. apply H. right. exact Hin.
  - apply IH. intros h' Hin. apply H. right. exact Hin.
  - apply IH. intros h' Hin. apply H. right. exact Hin.
Qed.

Lemma findSection_app (n h : string) (pre rest : list IniLine) :
  (forall h', In (Header h') pre -> sameSection h' n = false) ->
  sameSection h n = true ->
  findSection n (pre ++ Header h :: rest) = Some (sectionBody rest).
Proof.
  intros Hpre Hh. induction pre as [|l pre IH]; simpl.
  - rewrite Hh. reflexivity.
  - assert (IH' : findSection n (pre ++ Header h :: rest) = Some (sectionBody rest))
      by (apply IH; intros h' Hin; apply Hpre; right; exact Hin).
    destruct l as [h'| |]; [|exact IH'|exact IH'].
    rewrite (Hpre h' (or_introl eq_refl)). exact IH'.
Qed.

Lemma sectionBody_app (body rest : list IniLine) :
  (forall l, In l body -> forall h, l <> Header h) ->
  sectionBody (body ++ rest) = body ++ sectionBody rest.
Proof.
  induction body as [|l body IH]; intros H; simpl; [reflexivity|].
  destruct l as [h| |].
  - exfalso. exact (H (Header h) (or_introl eq_refl) h eq_refl).
  - rewrite IH; [reflexivity|]. intros l Hin. apply H. right. exact Hin.
  - rewrite IH; [reflexivity|]. intros l Hin. apply H. right. exact Hin.
Qed.

Lemma keyIn_app (k v : string) (l1 l2 : list IniLine) :
  keyIn k l1 = Some v -> keyIn k (l1 ++ l2) = Some v.
Proof.
  induction l1 as [|l l1 IH]; simpl; [discriminate|].
  destruct l as [h|k' v'|]; auto.
  destruct (String.eqb k k'); auto.
Qed.

(** C8.  A missing credentials file and a file without a section for the
    profile both give [ProfileNotFoundInCredentialsFile]; when the first
    section whose header equals the profile name up to letter case holds
    [aws_access_key_id] and [aws_secret_access_key] before any further
    header, those two values are returned. *)
Theorem resolveStaticCredentials_spec (profileName : string) :
  resolveStaticCredentials None profileName = ProfileNotFoundInCredentialsFile
  /\ (forall content,
        (forall h, In (Header h) (map parseLine (lines content)) ->
                   sameSection h profileName = false) ->
        resolveStaticCredentials (Some content) profileName
        = resolveStaticCredentials None profileName)
  /\ (forall content pre hdr body post h a s,
        lines content = pre ++ hdr :: body ++ post ->
        (forall h', In (Header h') (map parseLine pre) ->
                    sameSection h' profileName = false) ->
        parseLine hdr = Header h ->
        lowerString h = lowerString profileName ->
        (forall l, In l body -> forall h', parseLine l <> Header h') ->
        keyIn "aws_access_key_id" (map parseLine body) = Some a ->
        keyIn "aws_secret_access_key" (map parseLine body) = Some s ->
        resolveStaticCredentials (Some content) profileName = StaticCredentials a s).
Proof.
  split; [reflexivity|split].
  - intros content H. simpl. unfold credentialsInLines.
    rewrite findSection_none by exact H. reflexivity.
  - intros content pre hdr body post h a s Hl Hpre Hh Hcase Hbody Ha Hs.
    simpl. unfold credentialsInLines. rewrite Hl, map_app. simpl.
    rewrite Hh, map_app.
    rewrite findSection_app; [| exact Hpre | unfold sameSection; rewrite Hcase;
                                             apply String.eqb_refl].
    rewrite sectionBody_app.
    + rewrite (keyIn_app _ _ _ _ Ha), (keyIn_app _ _ _ _ Hs). reflexivity.
    + intros l Hin h' E. apply in_map_iff in Hin. destruct Hin as (l0 & <- & Hin).
      exact (Hbody l0 Hin h' E).
Qed.

Lemma resolveStaticCredentials_witness :
  resolveStaticCredentials (Some credentialsFixture) "test-codemie-profile"
  = StaticCredentials "AKIATEST" "test-secret".
Proof.
  destruct (resolveStaticCredentials_spec "test-codemie-profile") as (_ & _ & H).
  apply (H credentialsFixture
           ["[default]"; "aws_access_key_id = AKIADEFAULT";
            "aws_secret_access_key = default-secret"]
           "[Test-Codemie-Profile]"
           ["aws_access_key_id = AKIATEST"; "aws_secret_access_key = test-secret"]
           [EmptyString] "Test-Codemie-Profile").
  - vm_compute. reflexivity.
  - intros h' Hin. vm_compute in Hin.
    destruct Hin as [E|[E|[E|[]]]]; try discriminate E.
    injection E as <-. vm_compute. reflexivity.
  - vm_compute. reflexivity.
  - vm_compute. reflexivity.
  - intros l Hin h'. vm_compute in Hin.
    destruct Hin as [<-|[<-|[]]]; vm_compute; discriminate.
  - vm_compute. reflexivity.
  - vm_compute. reflexivity.
Defined.

(** ** Atomic save protocol *)

Module AtomicSaveFacts.
Import AtomicSave.

Lemma map_idPay_setPc (ws : list Writer) (i : nat) (p : Pc) :
  map idPay (setPc ws i p) = map idPay ws.
Proof.
  induction ws as [|w ws IH]; simpl; [reflexivity|].
  rewrite IH. destruct (Nat.eqb (wid w) i); reflexivity.
Qed.

Lemma in_setPc (w' : Writer) (ws : list Writer) (i : nat) (p : Pc) :
  In w' (setPc ws i p) ->
  (wid w' <> i /\ In w' ws)
  \/ (exists w0, In w0 ws /\ wid w0 = i /\ w' = mkWriter i (payload w0) p).
Proof.
  unfold setPc. intros H. apply in_map_iff in H. destruct H as (w0 & E & Hin).
  destruct (Nat.eqb (wid w0) i) eqn:Hi.
  - apply Nat.eqb_eq in Hi. right. exists w0. subst. auto.
  - apply Nat.eqb_neq in Hi. left. subst. auto.
Qed.

Lemma wid_unique (l : list Writer) (w1 w2 : Writer) :
  NoDup (map wid l) -> In w1 l -> In w2 l -> wid w1 = wid w2 -> w1 = w2.
Proof.
  induction l as [|w l IH]; simpl; [tauto|].
  intros Hnd H1 H2 E. inversion Hnd as [|x y Hnin Hnd']; subst.
  destruct H1 as [<-|H1], H2 as [<-|H2]; auto.
  - exfalso. apply Hnin. rewrite E. apply in_map, H2.
  - exfalso. apply Hnin. rewrite <- E. apply in_map, H1.
Qed.

Lemma map_wid_idPay (l : list Writer) : map wid l = map fst (map idPay l).
Proof. rewrite map_map. reflexivity. Qed.

Lemma payload_origin (ws l : list Writer) (w : Writer) :
  map idPay l = map idPay ws -> In w l ->
  exists w0, In w0 ws /\ payload w0 = payload w.
Proof.
  intros E Hin. assert (H : In (idPay w) (map idPay ws))
    by (rewrite <- E; apply in_map, Hin).
  apply in_map_iff in H. destruct H as (w0 & Hw & Hin0).
  exists w0. split; [exact Hin0|]. unfold idPay in Hw. congruence.
Qed.

Lemma updTemp_other (t : nat -> option Content) (i k : nat) (v : option Content) :
  k <> i -> updTemp t i v k = t k.
Proof. intros H. unfold updTemp. apply Nat.eqb_neq in H. rewrite H. reflexivity. Qed.

Lemma updTemp_same (t : nat -> option Content) (i : nat) (v : option Content) :
  updTemp t i v i = v.
Proof. unfold updTemp. rewrite Nat.eqb_refl. reflexivity. Qed.

Lemma step_Inv (init : option Content) (ws : list Writer) (W W' : World) :
  NoDup (map wid ws) -> Inv init ws W -> step W W' -> Inv init ws W'.
Proof.
  intros Hnd (Hid & Ht & Ho & Hw) Hs.
  assert (Hnd' : NoDup (map wid (writers W)))
    by (rewrite map_wid_idPay, Hid, <- map_wid_idPay; exact Hnd).
  inversion Hs as [W0 w Hin Hpc | W0 w c rest pre Hin Hpc Htmp
                  | W0 w Hin Hpc | W0]; subst; unfold Inv;
    cbn [writers target temp observed].
  - (* open *)
    split; [rewrite map_idPay_setPc; exact Hid|].
    split; [exact Ht|]. split; [exact Ho|].
    intros w' rest' Hin' Hpc'. apply in_setPc in Hin'.
    destruct Hin' as [(Hne & Hin') | (w0 & Hin0 & Hi & ->)].
    + rewrite updTemp_other by exact Hne. exact (Hw w' rest' Hin' Hpc').
    + simpl in *. injection Hpc' as <-.
      rewrite (wid_unique _ w0 w Hnd' Hin0 Hin Hi).
      exists []. rewrite updTemp_same. auto.
  - (* write *)
    split; [rewrite map_idPay_setPc; exact Hid|].
    split; [exact Ht|]. split; [exact Ho|].
    intros w' rest' Hin' Hpc'. apply in_setPc in Hin'.
    destruct Hin' as [(Hne & Hin') | (w0 & Hin0 & Hi & ->)].
    + rewrite updTemp_other by exact Hne. exact (Hw w' rest' Hin' Hpc').
    + simpl in *. injection Hpc' as <-.
      rewrite (wid_unique _ w0 w Hnd' Hin0 Hin Hi).
      destruct (Hw w (c :: rest) Hin Hpc) as (pre0 & Hpre0 & Happ).
      rewrite Htmp in Hpre0. injection Hpre0 as <-.
      exists (pre ++ [c]). rewrite updTemp_same.
      rewrite <- app_assoc. auto.
  - (* rename *)
    destruct (Hw w [] Hin Hpc) as (pre & Hpre & Happ).
    rewrite app_nil_r in Happ. rewrite Hpre.
    split; [rewrite map_idPay_setPc; exact Hid|].
    split.
    + right. destruct (payload_origin ws (writers W) w Hid Hin) as (w0 & Hin0 & Hp0).
      exists w0. split; [exact Hin0|]. congruence.
    + split; [exact Ho|].
      intros w' rest' Hin' Hpc'. apply in_setPc in Hin'.
      destruct Hin' as [(Hne & Hin') | (w0 & Hin0 & Hi & ->)].
      * rewrite updTemp_other by exact Hne. exact (Hw w' rest' Hin' Hpc').
      * discriminate.
  - (* load *)
    split; [exact Hid|]. split; [exact Ht|]. split; [|exact Hw].
    intros o [<-|Hin]; [exact Ht | exact (Ho o Hin)].
Qed.

Lemma steps_Inv (init : option Content) (ws : list Writer) (W W' : World) :
  NoDup (map wid ws) -> Inv init ws W -> steps W W' -> Inv init ws W'.
Proof.
  intros Hnd HI Hs. induction Hs as [W|W1 W2 W3 H12 H23 IH]; [exact HI|].
  apply IH. exact (step_Inv init ws W1 W2 Hnd HI H12).
Qed.

(** C9.  However the steps of concurrent saves (each through a temporary
    file of its own, renamed over the configuration file) and loads
    interleave, every load returns a complete document: the file as it was
    before, or the whole payload of one of the saves, never part of one. *)
Theorem loads_complete (init : option Content) (stale : nat -> option Content)
  (ws : list Writer) (W : World) :
  NoDup (map wid ws) ->
  (forall w, In w ws -> pc w = Opening) ->
  steps (initWorld init stale ws) W ->
  forall o, In o (observed W) -> complete init ws o.
Proof.
  intros Hnd Hop Hs.
  assert (HI : Inv init ws (initWorld init stale ws)).
  { split; [reflexivity|]. split; [left; reflexivity|]. split; [simpl; tauto|].
    intros w rest Hin Hpc. simpl in Hin. rewrite (Hop w Hin) in Hpc. discriminate. }
  destruct (steps_Inv init ws _ W Hnd HI Hs) as (_ & _ & Ho & _).
  exact Ho.
Qed.

End AtomicSaveFacts.

Module AtomicSaveRuns.
Import AtomicSave AtomicSaveFacts.

Lemma exec_step (W W' : World) (a : Action) : exec W a = Some W' -> step W W'.
Proof.
  destruct a as [i|i|i|]; simpl.
  - destruct (findWriter (writers W) i) as [w|] eqn:Hf; [|discriminate].
    apply find_some in Hf. destruct Hf as [Hin _].
    destruct (pc w) eqn:Hpc; try discriminate.
    intros H. injection H as <-. apply step_open; assumption.
  - destruct (findWriter (writers W) i) as [w|] eqn:Hf; [|discriminate].
    apply find_some in Hf. destruct Hf as [Hin _].
    destruct (pc w) as [|[|c rest]|] eqn:Hpc; try discriminate.
    destruct (temp W (wid w)) as [pre|] eqn:Ht; [|discriminate].
    intros H. injection H as <-. eapply step_write; eassumption.
  - destruct (findWriter (writers W) i) as [w|] eqn:Hf; [|discriminate].
    apply find_some in Hf. destruct Hf as [Hin _].
    destruct (pc w) as [|[|c rest]|] eqn:Hpc; try discriminate.
    intros H. injection H as <-. apply step_rename; assumption.
  - intros H. injection H as <-. apply step_load.
Qed.

Lemma run_steps (W W' : World) (schedule : list Action) :
  run W schedule = Some W' -> steps W W'.
Proof.
  revert W. induction schedule as [|a rest IH]; intros W; simpl.
  - intros H. injection H as <-. apply steps_refl.
  - destruct (exec W a) as [W1|] eqn:E; [|discriminate].
    intros H. eapply steps_step; [exact (exec_step W W1 a E) | apply IH, H].
Qed.

(** The loads of the interleaving see the old file, then the document of
    the second process, then the document of the first. *)
Lemma loads_complete_witness :
  match run (initWorld (Some ["old"]) (fun _ => None) [saverA; saverB]) interleaving with
  | Some W =>
      observed W = [Some ["{"; "a"; "}"]; Some ["{"; "b"; "}"]; Some ["old"]]
      /\ (forall o, In o (observed W) -> complete (Some ["old"]) [saverA; saverB] o)
  | None => False
  end.
Proof.
  assert (Hobs : option_map observed
                   (run (initWorld (Some ["old"]) (fun _ => None) [saverA; saverB])
                        interleaving)
                 = Some [Some ["{"; "a"; "}"]; Some ["{"; "b"; "}"]; Some ["old"]])
    by (vm_compute; reflexivity).
  destruct (run (initWorld (Some ["old"]) (fun _ => None) [saverA; saverB])
                interleaving) as [W|] eqn:E; [|discriminate].
  injection Hobs as Hobs. split; [exact Hobs|].
  apply (loads_complete (Some ["old"]) (fun _ => None) [saverA; saverB]).
  - vm_compute. constructor; [intros [H|[]]; discriminate | constructor; [tauto | constructor]].
  - intros w [<-|[<-|[]]]; reflexivity.
  - apply (run_steps _ _ interleaving E).
Defined.

End AtomicSaveRuns.

Module ClaudePluginInstallerFacts.
Import ClaudePluginInstaller.

Lemma pathEqb_eq (p q : Path) : pathEqb p q = true <-> p = q.
Proof.
  revert q. induction p as [|a p IH]; intros [|b q]; simpl;
    try (split; congruence).
  rewrite andb_true_iff, String.eqb_eq, IH. split.
  - intros [-> ->]. reflexivity.
  - intros H. injection H as -> ->. auto.
Qed.

Lemma pathEqb_refl (p : Path) : pathEqb p p = true.
Proof. apply pathEqb_eq. reflexivity. Qed.

Lemma pathEqb_false (p q : Path) : p <> q -> pathEqb p q = false.
Proof.
  intros H. destruct (pathEqb p q) eqn:E; [|reflexivity].
  apply pathEqb_eq in E. contradiction.
Qed.

Lemma windows_ne_main (home : Path) : windowsHooks home <> mainHooks home.
Proof.
  unfold windowsHooks, mainHooks. intros H.
  apply app_inv_head in H. discriminate.
Qed.

Ltac path_cases :=
  repeat match goal with
  | |- context [pathEqb ?p ?p] => rewrite (pathEqb_refl p)
  | H : ?q <> ?p |- context [pathEqb ?q ?p] => rewrite (pathEqb_false q p H)
  end.

Lemma windowsHooks_gone (platform : string) (home : Path) (fs : FileSystem) :
  selectPlatformHooks platform home fs (windowsHooks home) = None.
Proof.
  pose proof (windows_ne_main home) as Hne.
  unfold selectPlatformHooks, existsSync.
  destruct (fs (windowsHooks home)) as [c|] eqn:Hw; [|exact Hw].
  destruct (String.eqb platform "win32"); unfold rename, rm; path_cases; reflexivity.
Qed.

(** On [win32], [hooks.json] gets the content of [hooks.windows.json] when
    that file exists; on any other platform [hooks.json] is left as it
    was.  In particular an existing [hooks.json] is never removed. *)
Theorem selectPlatformHooks_main (platform : string) (home : Path)
  (fs : FileSystem) :
  selectPlatformHooks platform home fs (mainHooks home)
  = (if String.eqb platform "win32"
     then match fs (windowsHooks home) with
          | Some c => Some c
          | None => fs (mainHooks home)
          end
     else fs (mainHooks home)).
Proof.
  unfold selectPlatformHooks, existsSync.
  destruct (fs (windowsHooks home)) as [c|] eqn:Hw;
    [|destruct (String.eqb platform "win32"); reflexivity].
  destruct (String.eqb platform "win32"); unfold rename, rm.
  - rewrite pathEqb_refl. exact Hw.
  - rewrite (pathEqb_false _ _ (not_eq_sym (windows_ne_main home))). reflexivity.
Qed.


(** Selecting the hooks a second time changes nothing. *)
Theorem selectPlatformHooks_idempotent (platform : string) (home : Path)
  (fs : FileSystem) (q : Path) :
  selectPlatformHooks platform home (selectPlatformHooks platform home fs) q
  = selectPlatformHooks platform home fs q.
Proof.
  unfold selectPlatformHooks at 1. unfold existsSync at 1.
  rewrite windowsHooks_gone. reflexivity.
Qed.

(** Whatever the platform, no [hooks.windows.json] is left in the
    installed plugin after the hook selection. *)
Theorem selectPlatformHooks_no_windows (platform : string) (home : Path)
  (fs : FileSystem) :
  selectPlatformHooks platform home fs (windowsHooks home) = None.
Proof. exact (windowsHooks_gone platform home fs). Qed.

(** [install] returns the base installer's result unchanged.  When the
    base installation fails or reports [already_exists], the installed
    files are exactly those the base left; after any other successful
    installation no [hooks.windows.json] remains. *)
Theorem install_hooks
  (baseInstall : FileSystem -> ExtensionInstallationResult * FileSystem)
  (platform : string) (home : Path) (fs : FileSystem) :
  fst (install baseInstall platform home fs) = fst (baseInstall fs)
  /\ (success (fst (baseInstall fs)) = false
      \/ action (fst (baseInstall fs)) = "already_exists" ->
      snd (install baseInstall platform home fs) = snd (baseInstall fs))
  /\ (success (fst (baseInstall fs)) = true ->
      action (fst (baseInstall fs)) <> "already_exists" ->
      snd (install baseInstall platform home fs) (windowsHooks home) = None).
Proof.
  unfold install. destruct (baseInstall fs) as [r fs1]. cbn [fst snd].
  split; [destruct (_ && _); reflexivity|split].
  - intros [H|H].
    + rewrite H. reflexivity.
    + rewrite H. simpl. rewrite andb_false_r. reflexivity.
  - intros Hs Ha. rewrite Hs. simpl.
    destruct (String.eqb (action r) "already_exists") eqn:E.
    + apply String.eqb_eq in E. contradiction.
    + simpl. apply windowsHooks_gone.
Qed.


End ClaudePluginInstallerFacts.

Module TestHarnessFacts.
Import TestHarness.

Lemma lowerString_app (a b : string) :
  lowerString (sappend a b) = sappend (lowerString a) (lowerString b).
Proof. unfold sappend. induction a as [|c a IH]; simpl; [reflexivity|]. now rewrite <- IH. Qed.

Lemma prefixb_app (a b c : string) : prefixb (sappend a b) (sappend a c) = prefixb b c.
Proof.
  unfold sappend. induction a as [|x a IH]; simpl; [reflexivity|].
  rewrite Ascii.eqb_refl. exact IH.
Qed.

Lemma containsb_app_r (p a b : string) :
  containsb p b = true -> containsb p (sappend a b) = true.
Proof.
  unfold sappend. induction a as [|x a IH]; simpl; [auto|].
  intros H. rewrite (IH H). apply orb_true_r.
Qed.

Lemma containsb_prefix (p s : string) : prefixb p s = true -> containsb p s = true.
Proof. destruct s; simpl; intros ->; reflexivity. Qed.

Lemma prefixb_empty (s : string) : prefixb EmptyString s = true.
Proof. destruct s; reflexivity. Qed.

(** After the section is appended the profile's header is found. *)
Lemma profileRegexTest_section (name c k s : string) :
  plainName name = true ->
  profileRegexTest name (sappend c (profileSection name k s)) = Some true.
Proof.
  intros Hp. unfold profileRegexTest. rewrite Hp. f_equal.
  unfold profileSection.
  rewrite !lowerString_app.
  apply containsb_app_r. unfold newline at 1. simpl lowerString at 1.
  change (lowerString newline) with newline.
  apply containsb_app_r, containsb_prefix.
  change (lowerString "[") with "[". change (lowerString "]") with "]".
  rewrite prefixb_app, prefixb_app.
  unfold sappend. simpl. reflexivity.
Qed.

(** Nothing is found in an empty file. *)
Lemma profileRegexTest_empty (name : string) :
  plainName name = true -> profileRegexTest name EmptyString = Some false.
Proof. intros Hp. unfold profileRegexTest. rewrite Hp. reflexivity. Qed.

(** For a profile name of letters, digits, [-] and [_], the AWS credentials
    setup keeps a missing or readable credentials file's content: it
    leaves the file as it was, or it writes the content read followed by a
    section for the profile with the two keys; it leaves the file as it
    was when a key is unset or empty.  An existing file it cannot read is
    read as empty and overwritten with the section alone. *)
Theorem setupAwsCredentials_append (accessKey secretKey awsProfileEnv : option string)
  (f : CredentialsFile) (Hplain : plainName (awsProfileOf awsProfileEnv) = true) :
  exists f', setupAwsCredentials accessKey secretKey awsProfileEnv f = Some f'
    /\ (f' = f
        \/ exists k s, accessKey = Some k /\ secretKey = Some s
             /\ f' = writeCredentials f
                      (sappend (readCredentials f)
                         (profileSection (awsProfileOf awsProfileEnv) k s)))
    /\ (nonEmpty accessKey && nonEmpty secretKey = false -> f' = f)
    /\ (forall c, f = UnreadableFile c ->
          nonEmpty accessKey && nonEmpty secretKey = true ->
          exists k s, f' = UnreadableFile (profileSection (awsProfileOf awsProfileEnv) k s)).
Proof.
  unfold setupAwsCredentials.
  destruct accessKey as [k|], secretKey as [s|];
    try (eexists; split; [reflexivity|];
         split; [left; reflexivity|];
         split; [reflexivity|];
         intros c _ H; simpl in H; rewrite ?andb_false_r in H; discriminate H).
  match goal with
  | |- context [nonEmpty (Some ?x) && nonEmpty (Some ?y)] =>
      destruct (nonEmpty (Some x) && nonEmpty (Some y)) eqn:Hks
  end;
    [|eexists; split; [reflexivity|]; split; [left; reflexivity|];
      split; [reflexivity | intros c _ H; discriminate H]].
  destruct (profileRegexTest (awsProfileOf awsProfileEnv) (readCredentials f)) as [[|]|]
    eqn:Ht.
  - eexists. split; [reflexivity|]. split; [left; reflexivity|].
    split; [intros H; discriminate H|].
    intros c -> _. simpl in Ht. rewrite profileRegexTest_empty in Ht by exact Hplain.
    discriminate Ht.
  - eexists. split; [reflexivity|]. split; [right; eauto 6|].
    split; [intros H; discriminate H|].
    intros c -> _. simpl. eauto.
  - unfold profileRegexTest in Ht. rewrite Hplain in Ht. discriminate Ht.
Qed.

(** For a profile name of letters, digits, [-] and [_]: once the setup has
    run with both keys set, the credentials file holds a header the
    test's RegExp finds for the profile, and running the setup again
    leaves the file unchanged. *)
Theorem setupAwsCredentials_idempotent (accessKey secretKey awsProfileEnv : option string)
  (f : CredentialsFile) (Hplain : plainName (awsProfileOf awsProfileEnv) = true) :
  exists f', setupAwsCredentials accessKey secretKey awsProfileEnv f = Some f'
    /\ setupAwsCredentials accessKey secretKey awsProfileEnv f' = Some f'
    /\ (nonEmpty accessKey && nonEmpty secretKey = true ->
        profileRegexTest (awsProfileOf awsProfileEnv) (storedContent f') = Some true).
Proof.
  unfold setupAwsCredentials.
  destruct accessKey as [k|], secretKey as [s|];
    try (eexists; split; [reflexivity|]; split; [reflexivity|];
         intros H; simpl in H; rewrite ?andb_false_r in H; discriminate H).
  match goal with
  | |- context [nonEmpty (Some ?x) && nonEmpty (Some ?y)] =>
      destruct (nonEmpty (Some x) && nonEmpty (Some y)) eqn:Hks
  end;
    [|eexists; split; [reflexivity|]; split; [reflexivity | intros H; discriminate H]].
  set (n := awsProfileOf awsProfileEnv) in *.
  destruct (profileRegexTest n (readCredentials f)) as [[|]|] eqn:Ht.
  - eexists. split; [reflexivity|]. rewrite Ht. split; [reflexivity|].
    intros _. destruct f as [|c|c]; cbn [readCredentials writeCredentials storedContent] in Ht |- *;
      [rewrite profileRegexTest_empty in Ht by exact Hplain; discriminate Ht
      | exact Ht
      | rewrite profileRegexTest_empty in Ht by exact Hplain; discriminate Ht].
  - eexists. split; [reflexivity|]. split.
    + destruct f as [|c|c]; cbn [readCredentials writeCredentials storedContent] in Ht |- *.
      * rewrite profileRegexTest_section by exact Hplain. reflexivity.
      * rewrite profileRegexTest_section by exact Hplain. reflexivity.
      * rewrite profileRegexTest_empty by exact Hplain. reflexivity.
    + intros _. destruct f as [|c|c]; cbn [readCredentials writeCredentials storedContent];
        apply profileRegexTest_section; exact Hplain.
  - unfold profileRegexTest in Ht. rewrite Hplain in Ht. discriminate Ht.
Qed.

Lemma splitOn_nonnil (c : ascii) (s : string) : splitOn c s <> [].
Proof.
  destruct s as [|x r]; simpl; [discriminate|].
  destruct (Ascii.eqb x c); [discriminate|].
  destruct (splitOn c r); discriminate.
Qed.

Lemma splitOn_app (c : ascii) (a b : string) :
  splitOn c (sappend a (String c b)) = splitOn c a ++ splitOn c b.
Proof.
  unfold sappend. induction a as [|x a IH]; simpl.
  - rewrite Ascii.eqb_refl. reflexivity.
  - destruct (Ascii.eqb x c); [rewrite IH; reflexivity|].
    rewrite IH. pose proof (splitOn_nonnil c a) as Hn.
    destruct (splitOn c a); [contradiction|reflexivity].
Qed.

Lemma splitOn_noSep (c : ascii) (s : string) : noSep c s = true -> splitOn c s = [s].
Proof.
  induction s as [|x r IH]; simpl; [reflexivity|].
  intros H. apply andb_true_iff in H as [H1 H2].
  apply negb_true_iff in H1. rewrite H1, (IH H2). reflexivity.
Qed.

Lemma splitOn_concat (c : ascii) (l : list string) :
  l <> [] -> splitOn c (String.concat (String c EmptyString) l) = flat_map (splitOn c) l.
Proof.
  induction l as [|x [|y r] IH]; intros Hl; [now elim Hl| |].
  - simpl. rewrite app_nil_r. reflexivity.
  - change (String.concat (String c EmptyString) (x :: y :: r))
      with (sappend x (String c (String.concat (String c EmptyString) (y :: r)))).
    rewrite splitOn_app, IH by discriminate. reflexivity.
Qed.

Lemma noSep_app (c : ascii) (a b : string) :
  noSep c (sappend a b) = noSep c a && noSep c b.
Proof.
  unfold sappend. induction a as [|x a IH]; simpl; [reflexivity|].
  rewrite IH. apply andb_assoc.
Qed.

Lemma commandParts_nonnil (profile model : option string) :
  commandParts profile model <> [].
Proof.
  unfold commandParts. intros H.
  apply app_eq_nil in H as [_ H]. apply app_eq_nil in H as [_ H]. discriminate H.
Qed.

(** The command of the multi-agent test, split at its spaces: [node], the
    agent's bin file, [--profile] and the profile when a non-empty profile
    is given, [--model] and the model when a non-empty model is given, in
    that order, then the task. *)
Theorem chatCommand_fields (agent : string) (profile model : option string)
  (Ha : noSep space agent = true)
  (Hp : forall p, profile = Some p -> noSep space p = true)
  (Hm : forall m, model = Some m -> noSep space m = true) :
  splitOn space (chatCommand agent profile model)
  = ["node"; binFile agent]
    ++ optFields "--profile" profile ++ optFields "--model" model
    ++ splitOn space taskFlag.
Proof.
  unfold chatCommand.
  change (sappend "node " ?r) with (sappend "node" (String space r)).
  rewrite splitOn_app.
  change (sappend (binFile agent) (sappend " " ?r))
    with (sappend (binFile agent) (String space r)).
  rewrite splitOn_app, splitOn_concat by apply commandParts_nonnil.
  rewrite (splitOn_noSep _ (binFile agent)).
  2:{ unfold binFile. destruct (String.eqb agent "codemie-code"); [reflexivity|].
      rewrite !noSep_app, Ha. reflexivity. }
  unfold commandParts. rewrite !flat_map_app. cbn [flat_map]. rewrite app_nil_r.
  assert (Hpf : flat_map (splitOn space)
     (if nonEmpty profile then
        match profile with Some p => [sappend "--profile " p] | None => [] end
      else []) = optFields "--profile" profile).
  { destruct profile as [p|]; [|reflexivity]. unfold nonEmpty, optFields.
    destruct (String.eqb p EmptyString); [reflexivity|]. cbn [flat_map negb]. rewrite app_nil_r.
    change (sappend "--profile " p) with (sappend "--profile" (String space p)).
    rewrite splitOn_app, (splitOn_noSep _ p (Hp p eq_refl)). reflexivity. }
  assert (Hmf : flat_map (splitOn space)
     (if nonEmpty model then
        match model with Some m => [sappend "--model " m] | None => [] end
      else []) = optFields "--model" model).
  { destruct model as [m|]; [|reflexivity]. unfold nonEmpty, optFields.
    destruct (String.eqb m EmptyString); [reflexivity|]. cbn [flat_map negb]. rewrite app_nil_r.
    change (sappend "--model " m) with (sappend "--model" (String space m)).
    rewrite splitOn_app, (splitOn_noSep _ m (Hm m eq_refl)). reflexivity. }
  change (splitOn " "%char) with (splitOn space).
  rewrite Hpf, Hmf. reflexivity.
Qed.

(** A command that ran to completion has exit code 0 and a failed one
    never has: it has its own non-zero exit status, or 1 when it has none
    (killed by a signal or by the timeout). *)
Theorem runAgentCommand_exitCode (r : ExecResult) :
  (rExitCode (runAgentCommand r) = 0%Z <-> exists out, r = ExecOk out)
  /\ (forall e, r = ExecFailed e ->
        rExitCode (runAgentCommand r)
        = match errStatus e with
          | Some st => if Z.eqb st 0 then 1%Z else st
          | None => 1%Z
          end
        /\ rExitCode (runAgentCommand r) <> 0%Z).
Proof.
  destruct r as [out|e]; simpl.
  - split; [split; eauto|intros e H; discriminate H].
  - assert (Hnz : (match errStatus e with
                   | Some st => if Z.eqb st 0 then 1 else st
                   | None => 1
                   end <> 0)%Z).
    { destruct (errStatus e) as [st|]; [|discriminate].
      destruct (Z.eqb st 0) eqn:E; [discriminate|]. apply Z.eqb_neq, E. }
    split.
    + split; [intros H; contradiction | intros (out & H); discriminate H].
    + intros e' H. injection H as <-. split; [reflexivity|exact Hnz].
Qed.

Lemma setupAwsCredentials_append_witness :
  exists f', setupAwsCredentials (Some "AKIA1") (Some "s3cr3t") (Some "Dev-Profile")
               (ReadableFile "[default]") = Some f'
    /\ (f' = ReadableFile "[default]"
        \/ exists k s, Some "AKIA1" = Some k /\ Some "s3cr3t" = Some s
             /\ f' = writeCredentials (ReadableFile "[default]")
                      (sappend (readCredentials (ReadableFile "[default]"))
                         (profileSection (awsProfileOf (Some "Dev-Profile")) k s)))
    /\ (nonEmpty (Some "AKIA1") && nonEmpty (Some "s3cr3t") = false
        -> f' = ReadableFile "[default]")
    /\ (forall c, ReadableFile "[default]" = UnreadableFile c ->
          nonEmpty (Some "AKIA1") && nonEmpty (Some "s3cr3t") = true ->
          exists k s, f' = UnreadableFile
                             (profileSection (awsProfileOf (Some "Dev-Profile")) k s)).
Proof.
  apply setupAwsCredentials_append. vm_compute. reflexivity.
Defined.

Lemma setupAwsCredentials_idempotent_witness :
  exists f', setupAwsCredentials (Some "AKIA1") (Some "s3cr3t") None
               (UnreadableFile "[default]") = Some f'
    /\ setupAwsCredentials (Some "AKIA1") (Some "s3cr3t") None f' = Some f'
    /\ (nonEmpty (Some "AKIA1") && nonEmpty (Some "s3cr3t") = true ->
        profileRegexTest (awsProfileOf None) (storedContent f') = Some true).
Proof.
  apply setupAwsCredentials_idempotent. vm_compute. reflexivity.
Defined.

Lemma chatCommand_fields_witness :
  splitOn space (chatCommand "gemini" (Some "gemini-profile") (Some "gemini-2.5-flash"))
  = ["node"; binFile "gemini"]
    ++ optFields "--profile" (Some "gemini-profile")
    ++ optFields "--model" (Some "gemini-2.5-flash")
    ++ splitOn space taskFlag.
Proof.
  apply chatCommand_fields;
    [reflexivity
    | intros p H; injection H as <-; reflexivity
    | intros m H; injection H as <-; reflexivity].
Defined.

End TestHarnessFacts.

Module SetupTestFacts.
Import TestHarness.

Lemma missingVars_nil (n : string) (ev : EnvVars) :
  missingVars n ev = [] ->
  nonEmpty (evBaseUrl ev) = true /\ nonEmpty (evApiKey ev) = true
  /\ (String.eqb n "bedrock" = true ->
      nonEmpty (evSecretKey ev) = true /\ nonEmpty (evRegion ev) = true).
Proof.
  unfold missingVars, requiredVars, envVarOf. simpl.
  destruct (nonEmpty (evBaseUrl ev)), (nonEmpty (evApiKey ev)); simpl;
    try discriminate.
  destruct (String.eqb n "bedrock"); simpl; [|repeat split; discriminate].
  destruct (nonEmpty (evSecretKey ev)), (nonEmpty (evRegion ev)); simpl;
    try discriminate. auto.
Qed.

(** When the setup test does not skip (no required variable is unset or
    empty), the profile it builds passes the credential validator. *)
Theorem buildProfile_valid (n : string) (ev : EnvVars)
  (Hm : missingVars n ev = []) :
  validate (buildProfile n ev) = Valid.
Proof.
  destruct (missingVars_nil n ev Hm) as (Hb & Ha & Hbr).
  unfold buildProfile. destruct (String.eqb n "bedrock") eqn:Hn.
  - destruct (Hbr eq_refl) as [Hs Hr].
    unfold validate, buildBedrock, bedrockAuthOk, require. simpl.
    rewrite Hb, Hr, Ha, Hs. simpl. reflexivity.
  - unfold validate, buildLitellm, require. simpl.
    rewrite Hb, Ha. reflexivity.
Qed.

Lemma setupConfig_wf (n : string) (ev : EnvVars) :
  wfConfig (setupConfig n ev) = true.
Proof.
  unfold wfConfig, setupConfig, buildProfile.
  destruct (String.eqb n "bedrock"); reflexivity.
Qed.

Lemma applyOverrides_noFlags (p : CodeMieConfigOptions) :
  applyOverrides noFlags p = p.
Proof. destruct p; reflexivity. Qed.

Section WrittenConfig.

Context {text : Type}.
Variable parseJson : text -> option json.
Variable stringifyJson : json -> text.
Hypothesis parse_stringify :
  forall j, wfJson j = true -> parseJson (stringifyJson j) = Some j.

(** When the setup test does not skip, the configuration file it writes
    loads back as its document, and an invocation without flags, whatever
    the environment, resolves to the test's profile, marked active. *)
Theorem setupConfig_status (n : string) (ev : EnvVars) (env : Env)
  (file : option text) (Hm : missingVars n ev = []) :
  load parseJson (save stringifyJson (setupConfig n ev) file) = Loaded (setupConfig n ev)
  /\ fst (invoke parseJson noFlags env (save stringifyJson (setupConfig n ev) file))
     = InvResolved (Resolved (mkEffective (Some n) (buildProfile n ev) true)).
Proof.
  assert (Hl : load parseJson (save stringifyJson (setupConfig n ev) file)
               = Loaded (setupConfig n ev)).
  { exact (load_save parseJson stringifyJson parse_stringify (setupConfig n ev) file
             eq_refl (setupConfig_wf n ev)). }
  split; [exact Hl|].
  unfold invoke. rewrite Hl. unfold resolve, baseProfile. simpl.
  rewrite String.eqb_refl.
  rewrite applyOverrides_noFlags.
  rewrite buildProfile_valid by exact Hm. simpl. rewrite String.eqb_refl. reflexivity.
Qed.

End WrittenConfig.

Section SwitchStatus.

Context {text : Type}.
Variable parseJson : text -> option json.
Variable stringifyJson : json -> text.
Hypothesis parse_wf : forall t j, parseJson t = Some j -> wfJson j = true.
Hypothesis parse_stringify :
  forall j, wfJson j = true -> parseJson (stringifyJson j) = Some j.

(** A [profile switch] to a stored, complete profile exits successfully,
    and the [profile status] invocation that follows it resolves, whatever
    the environment, to that profile's fields marked active. *)
Theorem switch_then_status (n : string) (p : CodeMieConfigOptions)
  (d : MultiProviderConfig) (env : Env) (file : option text)
  (Hl : load parseJson file = Loaded d) (Hn : assoc n (profiles d) = Some p)
  (Hv : validate p = Valid) :
  fst (switchActive parseJson stringifyJson n file) = Done
  /\ fst (invoke parseJson noFlags env (snd (switchActive parseJson stringifyJson n file)))
     = InvResolved (Resolved (mkEffective (Some n) p true)).
Proof.
  destruct (load_inv parseJson parse_wf file d Hl) as [Hw Hver].
  unfold switchActive. rewrite Hl, Hn. split; [reflexivity|]. cbn [fst snd].
  unfold invoke.
  rewrite (load_save parseJson stringifyJson parse_stringify (setActive d (Some n)) file
             Hver Hw).
  unfold resolve, baseProfile. simpl. rewrite Hn, applyOverrides_noFlags, Hv.
  simpl. rewrite String.eqb_refl. reflexivity.
Qed.

End SwitchStatus.

Lemma buildProfile_valid_witness :
  validate (buildProfile "bedrock" bedrockEnvVars) = Valid.
Proof. apply buildProfile_valid. vm_compute. reflexivity. Defined.

Lemma setupConfig_status_witness :
  fst (invoke valueParse noFlags []
         (save valueStringify (setupConfig "bedrock" bedrockEnvVars) None))
  = InvResolved (Resolved (mkEffective (Some "bedrock")
                             (buildProfile "bedrock" bedrockEnvVars) true)).
Proof.
  exact (proj2 (setupConfig_status valueParse valueStringify valueParse_stringify
                  "bedrock" bedrockEnvVars [] None ltac:(vm_compute; reflexivity))).
Defined.

Lemma switch_then_status_witness :
  fst (invoke valueParse noFlags []
         (snd (switchActive valueParse valueStringify "bedrock-creds" fixtureFile)))
  = InvResolved (Resolved (mkEffective (Some "bedrock-creds") bedrockCredsFixture true)).
Proof.
  exact (proj2 (switch_then_status valueParse valueStringify valueParse_wf
                  valueParse_stringify "bedrock-creds" bedrockCredsFixture
                  profileStatusConfig [] fixtureFile
                  ltac:(vm_compute; reflexivity) ltac:(vm_compute; reflexivity)
                  ltac:(vm_compute; reflexivity))).
Defined.

End SetupTestFacts.
